(** * Archer incident-report pipeline: a shallow embedding and its properties

    The development follows the three source files of the function app:
    - [archer_api.py]      (class [ArcherAPI]: request builder, unwrapper,
                            schema extractor, record normalizer, fetch loop),
    - [authentication.py]  (class [Authenticator]: session-token handshake),
    - [incident-report-timer/__init__.py] (the timer entry point [main]).

    Python values are modelled as follows.  A [str] is a [string] whose
    characters are code points below 256; [None] is the [None] of an
    [option]; a [dict] is a [gmap] (key order is not modelled: no statement
    below depends on it); an exception is a constructor of [exn] carried by
    [result]; the [while True] loop of the fetcher runs on fuel. *)

From Stdlib Require Import ZArith String Ascii List.
From stdpp Require Import base option list gmap strings pretty.

Local Open Scope string_scope.
Local Open Scope Z_scope.

(** ** Python exceptions *)

Inductive exn : Type :=
  | ParseError        (* xml.etree.ElementTree.ParseError *)
  | AttributeError    (* attribute access on None *)
  | TypeError
  | KeyError
  | IndexError        (* str.format: no positional argument *)
  | ValueError        (* str.format: too many digits; pandas: a date column
                         that does not convert *)
  | RequestException  (* raised by requests.post: no response obtained *)
  | VaultError        (* raised by SecretClient.get_secret *)
  | StorageError.     (* raised while encoding or uploading the file *)

Inductive result (A : Type) : Type :=
  | Ok (a : A)
  | Raise (e : exn).
Arguments Ok {A} a.
Arguments Raise {A} e.

#[global] Instance result_ret : MRet result := @Ok.
#[global] Instance result_bind : MBind result := λ A B k r,
  match r with
  | Ok a => k a
  | Raise e => Raise e
  end.

(** ** Strings *)

Module PyStr.

(** [str.isspace] on code points below 256. *)
Definition is_space (c : ascii) : bool :=
  let n := N_of_ascii c in
  ((9 <=? n) && (n <=? 13) || (28 <=? n) && (n <=? 32)
   || (n =? 133) || (n =? 160))%N.

Fixpoint lstrip (s : string) : string :=
  match s with
  | EmptyString => EmptyString
  | String c s' => if is_space c then lstrip s' else s
  end.

(** What is left of [s] once trailing whitespace is removed. *)
Fixpoint rstrip (s : string) : string :=
  match s with
  | EmptyString => EmptyString
  | String c s' =>
      match rstrip s' with
      | EmptyString => if is_space c then EmptyString else String c EmptyString
      | r => String c r
      end
  end.

(** [s.strip()] *)
Definition strip (s : string) : string := rstrip (lstrip s).

(** The truth value of a [str]. *)
Definition truthy (s : string) : bool :=
  match s with
  | EmptyString => false
  | String _ _ => true
  end.

Fixpoint starts_with (p s : string) : bool :=
  match p, s with
  | EmptyString, _ => true
  | String a p', String b s' => if Ascii.eqb a b then starts_with p' s' else false
  | String _ _, EmptyString => false
  end.

(** [needle in hay] *)
Fixpoint contains (needle hay : string) : bool :=
  starts_with needle hay
  || match hay with
     | EmptyString => false
     | String _ hay' => contains needle hay'
     end.

(** [str(x)] for an optional string, as an f-string renders it. *)
Definition of_opt (o : option string) : string :=
  match o with
  | Some s => s
  | None => "None"
  end.

(** [str(n)] for an integer. *)
Definition of_Z (n : Z) : string := pretty n.

(** How [str.format] reads the name of a replacement field: the empty name
    and a name made of decimal digits select a positional argument, any
    other name selects a keyword argument.  The digits are read left to
    right as CPython does, and a number that exceeds [PY_SSIZE_T_MAX]
    (2^63 - 1) is an error of its own. *)
Inductive field_kind : Type :=
  | Positional
  | Keyword
  | TooManyDigits.

Definition is_digit (c : ascii) : bool :=
  let n := N_of_ascii c in ((48 <=? n) && (n <=? 57))%N.

Definition PY_SSIZE_T_MAX : N := 9223372036854775807.

Fixpoint get_integer (accumulator : N) (s : string) : field_kind :=
  match s with
  | EmptyString => Positional
  | String c s' =>
      if is_digit c then
        let digitval := (N_of_ascii c - 48)%N in
        if (PY_SSIZE_T_MAX <? 10 * accumulator + digitval)%N then TooManyDigits
        else get_integer (10 * accumulator + digitval)%N s'
      else Keyword
  end.

Definition field_kind_of (name : string) : field_kind := get_integer 0 name.

End PyStr.

(** ** XML trees ([xml.etree.ElementTree]) *)

Module ET.

#[local] Set Warnings "-register-all".
Inductive Element : Type :=
  Elem (tag : string) (attrib : gmap string string)
       (text : option string) (children : list Element).

Definition tag (e : Element) : string := let 'Elem t _ _ _ := e in t.
Definition attrib (e : Element) : gmap string string := let 'Elem _ a _ _ := e in a.
Definition text (e : Element) : option string := let 'Elem _ _ x _ := e in x.
Definition children (e : Element) : list Element := let 'Elem _ _ _ c := e in c.

(** [e.get(key)] *)
Definition get (e : Element) (key : string) : option string := attrib e !! key.

(** [e.get(key, default)] *)
Definition get_default (e : Element) (key default : string) : string :=
  match attrib e !! key with
  | Some v => v
  | None => default
  end.

(** [e.iter()]: the element, then its subtree, in document order. *)
Fixpoint iter (e : Element) : list Element :=
  match e with
  | Elem _ _ _ cs => e :: concat (map iter cs)
  end.

(** The elements strictly below [e], in document order. *)
Definition below (e : Element) : list Element := concat (map iter (children e)).

Definition has_tag (t : string) (e : Element) : bool := String.eqb (tag e) t.

(** [e.findall('.//t')] *)
Definition findall_desc (e : Element) (t : string) : list Element :=
  List.filter (has_tag t) (below e).

(** [e.find('.//t')] *)
Definition find_desc (e : Element) (t : string) : option Element :=
  head (findall_desc e t).

(** [e.findall('.//t1/t2')]: the [t2] children of every [t1] descendant. *)
Definition findall_desc_child (e : Element) (t1 t2 : string) : list Element :=
  concat (map (λ d, List.filter (has_tag t2) (children d)) (findall_desc e t1)).

(** [e.find('.//t1/t2')] *)
Definition find_desc_child (e : Element) (t1 t2 : string) : option Element :=
  head (findall_desc_child e t1 t2).

End ET.
Import ET.

(** ** archer_api.py: schema extractor and record normalizer *)

(** [x.text.strip() if x.text else ''] *)
Definition text_stripped (x : Element) : string :=
  match text x with
  | Some t => if PyStr.truthy t then PyStr.strip t else ""
  | None => ""
  end.

(** The schema: [field.get('id')] to [field.get('name')], both optional. *)
Definition get_report_headers (xml_tree : Element)
  : gmap (option string) (option string) :=
  fold_left (λ field_definitions_dict field,
               <[get field "id" := get field "name"]> field_definitions_dict)
            (findall_desc xml_tree "FieldDefinition") ∅.

Definition extract_list_value (field : Element) : option string :=
  match find_desc_child field "ListValues" "ListValue" with
  | Some list_value_element => get list_value_element "displayName"
  | None => None
  end.

Definition extract_reference (field : Element) : option string :=
  match find_desc field "Reference" with
  | Some reference_element => Some (text_stripped reference_element)
  | None => None
  end.

Record user_data : Type := UserData {
  email : string;
  firstName : string;
  lastName : string
}.

Definition extract_users (field : Element) : option user_data :=
  match find_desc_child field "Users" "User" with
  | Some user_element =>
      Some {| email := text_stripped user_element;
              firstName := get_default user_element "firstName" "";
              lastName := get_default user_element "lastName" "" |}
  | None => None
  end.

(** [if x:] for an optional string: the string when the test passes;
    [None] and [''] do not pass. *)
Definition if_truthy (o : option string) : option string :=
  match o with
  | Some s => if PyStr.truthy s then Some s else None
  | None => None
  end.

(** The entries written for a user-identity field (lines 153-155 and 157). *)
Definition with_user (field_name : option string) (u : user_data)
    (record_dict : gmap (option string) string) : gmap (option string) string :=
  <[field_name := email u]>
    (<[Some (PyStr.of_opt field_name ++ "_LastName") := lastName u]>
       (<[Some (PyStr.of_opt field_name ++ "_FirstName") := firstName u]>
          record_dict)).

(** [report_headers.get(field_id, f'Field_{field_id}')] *)
Definition field_name_of (report_headers : gmap (option string) (option string))
    (field : Element) : option string :=
  let field_id := get field "id" in
  match report_headers !! field_id with
  | Some name => name
  | None => Some ("Field_" ++ PyStr.of_opt field_id)
  end.

(** One iteration of the loop over the fields of a record
    (lines 138-157): the record dictionary after the field is processed. *)
Definition process_field (report_headers : gmap (option string) (option string))
    (record_dict : gmap (option string) string) (field : Element)
  : gmap (option string) string :=
  let field_value := text_stripped field in
  let field_name := field_name_of report_headers field in
  if String.eqb field_value "" then
    let extracted_list_value := extract_list_value field in
    let extracted_reference := extract_reference field in
    let extracted_user := extract_users field in
    match if_truthy extracted_list_value with
    | Some label => <[field_name := label]> record_dict
    | None =>
        match if_truthy extracted_reference with
        | Some ref => <[field_name := ref]> record_dict
        | None =>
            match extracted_user with
            | Some u => with_user field_name u record_dict
            | None => <[field_name := field_value]> record_dict
            end
        end
    end
  else
    <[field_name := field_value]> record_dict.

Definition record_to_dict (report_headers : gmap (option string) (option string))
    (record : Element) : gmap (option string) string :=
  fold_left (process_field report_headers) (findall_desc record "Field") ∅.

(** The keys the iteration for a field writes: the field's name, and for
    a field handled as a user identity the two suffixed names as well. *)
Definition written_keys (report_headers : gmap (option string) (option string))
    (field : Element) : list (option string) :=
  let field_name := field_name_of report_headers field in
  if String.eqb (text_stripped field) "" then
    match if_truthy (extract_list_value field) with
    | Some _ => [field_name]
    | None =>
        match if_truthy (extract_reference field) with
        | Some _ => [field_name]
        | None =>
            match extract_users field with
            | Some _ =>
                [field_name;
                 Some (PyStr.of_opt field_name ++ "_LastName");
                 Some (PyStr.of_opt field_name ++ "_FirstName")]
            | None => [field_name]
            end
        end
    end
  else [field_name].

Definition get_report_records (xml_tree : Element)
    (report_headers : gmap (option string) (option string))
  : list (gmap (option string) string) :=
  map (record_to_dict report_headers) (findall_desc xml_tree "Record").

(** ** The environment of a run *)

(** A request template, as [str.format] reads it: literal text and
    replacement fields.  [Hole name] is the field written [{name}], where
    [name] is the whole field name: no attribute or index access, no
    conversion and no format specification. *)
Inductive Segment : Type :=
  | Lit (s : string)
  | Hole (name : string).

(** [template.format] with keyword arguments [kwargs] and no positional
    argument.  The fields are read left to right: a positional field finds
    no argument (IndexError), a keyword field is looked up in [kwargs]
    (KeyError when absent). *)
Fixpoint format (template : list Segment) (kwargs : gmap string string)
  : result string :=
  match template with
  | [] => Ok ""
  | Lit s :: rest => tail ← format rest kwargs; Ok (s ++ tail)
  | Hole name :: rest =>
      match PyStr.field_kind_of name with
      | PyStr.TooManyDigits => Raise ValueError
      | PyStr.Positional => Raise IndexError
      | PyStr.Keyword =>
          match kwargs !! name with
          | Some v => tail ← format rest kwargs; Ok (v ++ tail)
          | None => Raise KeyError
          end
      end
  end.

Module Requests.
Record Request : Type := {
  url : string;
  data : string;
  headers : gmap string string
}.
Record Response : Type := {
  status_code : Z;
  text : string
}.
End Requests.
Import (coercions) Requests.
Abbreviation Request := Requests.Request.
Abbreviation Response := Requests.Response.

(** Third-party functions the code calls and whose code is not part of the
    repository. *)
(** A column of timestamps: nanoseconds since the epoch (UTC for a column
    with a time zone), [None] for [NaT].  A column is either without time
    zone or carries one, given by its offset from UTC in nanoseconds. *)
Inductive DatetimeColumn : Type :=
  | Naive (cells : list (option Z))
  | Aware (utc_offset : Z) (cells : list (option Z)).

Definition cells_of (column : DatetimeColumn) : list (option Z) :=
  match column with
  | Naive cells => cells
  | Aware _ cells => cells
  end.

Record Lib : Type := {
  (** [ET.fromstring] *)
  fromstring : string → result Element;
  (** [pd.to_datetime(column, errors='coerce', dayfirst=True)] on a column
      of strings ([None] is a missing cell), as far as line 55 uses it: the
      column of timestamps, or [None] when the conversion of the column
      raises (strings with different time zones in one column). *)
  to_datetime : list (option string) → option DatetimeColumn
}.

(** The files of the repository that are not among the sources: the
    constants of [config.py] and the templates under [templates/], taken as
    present and well formed. *)
Record Config : Type := {
  ARCHER_PROD_URL : string;
  INCIDENT_REPORT_TOKEN : string;
  DIRECTORY : string;
  create_user_session_xml : list Segment;
  user_session_json : gmap string string;
  archer_incident_report_xml_template : list Segment;
  search_records_by_report_json : gmap string string
}.

(** A table of string cells: one dictionary per row, a missing key being a
    missing cell.  [pd.DataFrame(records)] is [records] itself and
    [pd.concat([a, b])] is [a ++ b]. *)
Abbreviation Table := (list (gmap (option string) string)).

(** The table [main] hands to the storage: the fetched rows, the converted
    date columns (which replace the fetched columns of the same name) and the
    [Days Open] column. *)
Record Enriched : Type := {
  rows : Table;
  date_columns : list (string * DatetimeColumn);
  days_open : list (option Z)
}.

(** The collaborators of a run.  The HTTP endpoint answers a request
    knowing the requests it has received before. *)
Record World : Type := {
  (** [azure_client.get_secret(key).value] *)
  get_secret : string → result string;
  (** [requests.post(url, data=..., headers=..., verify=False)] *)
  requests_post : list Request → Request → result Response;
  (** [pd.Timestamp('now')], in nanoseconds *)
  now : Z;
  (** [df.to_parquet()] followed by the upload to the data lake *)
  upload : string → Enriched → result unit
}.

(** How a computation that may loop ends. *)
Inductive outcome (A : Type) : Type :=
  | Returned (a : A)
  | Raised (e : exn)
  | OutOfFuel.
Arguments Returned {A} a.
Arguments Raised {A} e.
Arguments OutOfFuel {A}.

(** ** archer_api.py: request builder, unwrapper and fetch loop *)

Section ArcherAPI.
Context (lib : Lib) (cfg : Config) (w : World).

Definition archer_incident_report_xml (archer_token : option string)
    (archer_incident_report_guid : string) (archer_page_number : Z)
  : result string :=
  format (archer_incident_report_xml_template cfg)
    (<["archer_token" := PyStr.of_opt archer_token]>
       (<["archer_incident_report_guid" := archer_incident_report_guid]>
          {["archer_page_number" := PyStr.of_Z archer_page_number]})).

Definition webservices_ns : string := "{http://archer-tech.com/webservices/}".

Definition response_to_xml (response : Response) (request_type : string)
  : result Element :=
  outer ← fromstring lib (Requests.text response);
  match find_desc outer (webservices_ns ++ request_type) with
  | None => Raise AttributeError
  | Some node =>
      match text node with
      | None => Raise TypeError
      | Some inner => fromstring lib inner
      end
  end.

(** The request the loop posts for a page. *)
Definition page_request (url : string) (incident_report_xml : string) : Request :=
  {| Requests.url := url;
     Requests.data := incident_report_xml;
     Requests.headers := search_records_by_report_json cfg |}.

(** The [while True] loop (lines 213-235).  [posts] is the list of the
    requests posted so far, oldest first. *)
Fixpoint fetch_loop (fuel : nat) (archer_token : option string)
    (archer_incident_report_guid url : string)
    (posts : list Request) (archer_page_number : Z) (final_df : Table)
  : list Request * outcome Table :=
  match fuel with
  | O => (posts, OutOfFuel)
  | S fuel' =>
      match archer_incident_report_xml archer_token
              archer_incident_report_guid archer_page_number with
      | Raise e => (posts, Raised e)
      | Ok incident_report_xml =>
          let request := page_request url incident_report_xml in
          let posts' := (posts ++ [request])%list in
          match requests_post w posts request with
          | Raise e => (posts', Raised e)
          | Ok response =>
              match response_to_xml response "SearchRecordsByReportResult" with
              | Raise e => (posts', Raised e)
              | Ok xml_response =>
                  match findall_desc xml_response "Record" with
                  | [] => (posts', Returned final_df)
                  | _ :: _ =>
                      let report_headers := get_report_headers xml_response in
                      let df := get_report_records xml_response report_headers in
                      fetch_loop fuel' archer_token archer_incident_report_guid url
                        posts' (archer_page_number + 1) (df ++ final_df)%list
                  end
              end
          end
      end
  end.

Definition fetch_all_report_pages (fuel : nat) (archer_token : option string)
    (archer_incident_report_guid url : string) (posts : list Request)
  : list Request * outcome Table :=
  fetch_loop fuel archer_token archer_incident_report_guid url posts 1 [].

End ArcherAPI.

(** ** authentication.py: the session-token handshake *)

Section Authenticator.
Context (lib : Lib) (cfg : Config) (w : World).

(** Lines 31-41 and the arguments of the call on line 43: the request of
    the handshake, or the exception of a secret lookup or of the template. *)
Definition create_user_session_request (archer_url : string) : result Request :=
  let password_key :=
    if PyStr.contains "uat" archer_url
    then "archer-dev-password" else "archer-prod-password" in
  let instance_key :=
    if PyStr.contains "uat" archer_url
    then "archer-dev-instance" else "archer-prod-instance" in
  password ← get_secret w password_key;
  instance_id ← get_secret w instance_key;
  username ← get_secret w "archer-username";
  xml_data ← format (create_user_session_xml cfg)
    (<["username" := username]>
       (<["instance_id" := instance_id]> {["password" := password]}));
  Ok {| Requests.url := archer_url ++ "/ws/general.asmx";
        Requests.data := xml_data;
        Requests.headers := user_session_json cfg |}.

(** Returns the requests posted so far and the value (or the exception)
    of the call.  The token is the text of the result element, which may
    be [None]. *)
Definition archer_auth_token (archer_url : string) (posts : list Request)
  : list Request * result (option string) :=
  match create_user_session_request archer_url with
  | Raise e => (posts, Raise e)
  | Ok request =>
      let posts' := (posts ++ [request])%list in
      match requests_post w posts request with
      | Raise e => (posts', Raise e)
      | Ok response =>
          if Requests.status_code response =? 200 then
            (posts',
             root ← fromstring lib (Requests.text response);
             match find_desc root
                     (webservices_ns ++ "CreateUserSessionFromInstanceResult") with
             | None => Raise AttributeError
             | Some node => Ok (text node)
             end)
          else
            (posts',
             Ok (Some ("Error: " ++ PyStr.of_Z (Requests.status_code response))))
      end
  end.

End Authenticator.

(** ** incident-report-timer/__init__.py: date enrichment and [main] *)

Definition NS_PER_DAY : Z := 86400000000000.

(** [Timestamp.normalize()]: midnight of the same day. *)
Definition normalize (t : Z) : Z := t - t mod NS_PER_DAY.

(** [Timedelta.days] *)
Definition days (delta : Z) : Z := delta / NS_PER_DAY.

(** Subtraction of timestamps; [NaT] is absorbing. *)
Definition ts_sub (a b : option Z) : option Z :=
  match a, b with
  | Some x, Some y => Some (x - y)
  | _, _ => None
  end.

(** One cell of [np.where(pd.isnull(closed), (today - created).dt.days,
    (closed - created).dt.days)]; [None] is [NaN]. *)
Definition days_open_cell (today : Z) (closed created : option Z) : option Z :=
  match closed with
  | None => days <$> ts_sub (Some today) created
  | Some _ => days <$> ts_sub closed created
  end.

(** [df.columns] *)
Definition columns (df : Table) : gset (option string) := ⋃ (dom <$> df).

(** The cells of a column, top to bottom. *)
Definition series (df : Table) (col : option string) : list (option string) :=
  (λ row, row !! col) <$> df.

(** [[col for col in df.columns if 'Date' in col]], for a table without a
    column labelled [None]. *)
Definition date_columns_of (df : Table) : list string :=
  List.filter (PyStr.contains "Date") (omap id (elements (columns df))).

Inductive Ending : Type :=
  | AuthFailed (e : exn)      (* lines 30-32 *)
  | SecretsFailed (e : exn)   (* lines 38-40 *)
  | FetchFailed (e : exn)     (* lines 46-48 *)
  | FetchHung                 (* the fetch loop is still running *)
  | Crashed (e : exn)         (* uncaught, from lines 50-62 *)
  | UploadFailed (e : exn)    (* lines 78-79 *)
  | Uploaded (full_path : string) (df : Enriched).

Record Run : Type := {
  (** every request posted, oldest first *)
  posted : list Request;
  (** the arguments of the call to [fetch_all_report_pages], if made *)
  fetch_call : option (option string * string * string);
  ending : Ending
}.

Section Main.
Context (lib : Lib) (cfg : Config) (w : World).

(** [column.dt.normalize()]: midnight of the same day, in the time zone
    of the column when it has one. *)
Definition normalize_column (column : DatetimeColumn) : DatetimeColumn :=
  match column with
  | Naive cells => Naive ((λ cell : option Z, normalize <$> cell) <$> cells)
  | Aware utc_offset cells =>
      Aware utc_offset
        ((λ cell : option Z,
            (λ t, normalize (t + utc_offset) - utc_offset) <$> cell) <$> cells)
  end.

(** [pd.to_datetime(df[col], errors='coerce', dayfirst=True).dt.normalize()];
    [None] when the expression raises. *)
Definition converted (df : Table) (col : string) : option DatetimeColumn :=
  normalize_column <$> to_datetime lib (series df (Some col)).

(** Lines 50-62.  A column labelled [None] makes ['Date' in col] raise
    (line 51).  Every column whose name contains ['Date'] is converted
    (line 55), and a conversion that raises ends the stage.  Lines 59-61 read
    the two columns, which contain ['Date'], in their converted form:
    [df['Date/Time Closed']], then [today - df['Date Created']], then the
    difference of the two columns; a missing column raises KeyError, and
    since [today] has no time zone, a column with a time zone makes the
    subtraction raise TypeError. *)
Definition enrich (df : Table) : result Enriched :=
  if decide (None ∈ columns df) then Raise TypeError else
  match mapM (λ col, (λ column, (col, column)) <$> converted df col)
          (date_columns_of df) with
  | None => Raise ValueError
  | Some date_columns =>
      let today := normalize (now w) in
      if decide (Some "Date/Time Closed" ∈ columns df) then
        if decide (Some "Date Created" ∈ columns df) then
          match converted df "Date Created", converted df "Date/Time Closed" with
          | Some (Naive created), Some (Naive closed) =>
              Ok {| rows := df;
                    date_columns := date_columns;
                    days_open := zip_with (days_open_cell today) closed created |}
          | _, _ => Raise TypeError
          end
        else Raise KeyError
      else Raise KeyError
  end.

Definition file_name : string := "incident_report_alicja_report.parquet".

Definition main (fuel : nat) : Run :=
  match archer_auth_token lib cfg w (ARCHER_PROD_URL cfg) [] with
  | (posts, Raise e) =>
      {| posted := posts; fetch_call := None; ending := AuthFailed e |}
  | (posts, Ok archer_token) =>
      match
        archer_incident_report_guid ←
          get_secret w "archer-prod-incident-report-guid";
        url ← get_secret w "archer-search-url";
        Ok (archer_incident_report_guid, url)
      with
      | Raise e =>
          {| posted := posts; fetch_call := None; ending := SecretsFailed e |}
      | Ok (archer_incident_report_guid, url) =>
          let call := Some (archer_token, INCIDENT_REPORT_TOKEN cfg, url) in
          match fetch_all_report_pages lib cfg w fuel archer_token
                  (INCIDENT_REPORT_TOKEN cfg) url posts with
          | (posts', Raised e) =>
              {| posted := posts'; fetch_call := call; ending := FetchFailed e |}
          | (posts', OutOfFuel) =>
              {| posted := posts'; fetch_call := call; ending := FetchHung |}
          | (posts', Returned df) =>
              match enrich df with
              | Raise e =>
                  {| posted := posts'; fetch_call := call; ending := Crashed e |}
              | Ok df' =>
                  let full_path := DIRECTORY cfg ++ "/" ++ file_name in
                  match upload w full_path df' with
                  | Raise e =>
                      {| posted := posts'; fetch_call := call;
                         ending := UploadFailed e |}
                  | Ok _ =>
                      {| posted := posts'; fetch_call := call;
                         ending := Uploaded full_path df' |}
                  end
              end
          end
      end
  end.

End Main.

(** ** The model the schema sentence of the specification describes

    The schema is built once, from the first page of the session, and
    every page is normalized with it.  [schema] is [None] until the first
    page has been read. *)

Section FirstPageSchema.
Context (lib : Lib) (cfg : Config) (w : World).

Fixpoint fetch_loop_first_schema (fuel : nat) (archer_token : option string)
    (archer_incident_report_guid url : string)
    (schema : option (gmap (option string) (option string)))
    (posts : list Request) (archer_page_number : Z) (final_df : Table)
  : list Request * outcome Table :=
  match fuel with
  | O => (posts, OutOfFuel)
  | S fuel' =>
      match archer_incident_report_xml cfg archer_token
              archer_incident_report_guid archer_page_number with
      | Raise e => (posts, Raised e)
      | Ok incident_report_xml =>
          let request := page_request cfg url incident_report_xml in
          let posts' := (posts ++ [request])%list in
          match requests_post w posts request with
          | Raise e => (posts', Raised e)
          | Ok response =>
              match response_to_xml lib response "SearchRecordsByReportResult" with
              | Raise e => (posts', Raised e)
              | Ok xml_response =>
                  match findall_desc xml_response "Record" with
                  | [] => (posts', Returned final_df)
                  | _ :: _ =>
                      let report_headers :=
                        default (get_report_headers xml_response) schema in
                      let df := get_report_records xml_response report_headers in
                      fetch_loop_first_schema fuel' archer_token
                        archer_incident_report_guid url (Some report_headers)
                        posts' (archer_page_number + 1) (df ++ final_df)%list
                  end
              end
          end
      end
  end.

Definition fetch_all_first_schema (fuel : nat) (archer_token : option string)
    (archer_incident_report_guid url : string) (posts : list Request)
  : list Request * outcome Table :=
  fetch_loop_first_schema fuel archer_token archer_incident_report_guid url
    None posts 1 [].

End FirstPageSchema.

(** ** Runs of the fetch loop *)

Section Serves.
Context (lib : Lib) (cfg : Config) (w : World).
Context (archer_token : option string) (guid url : string).

(** [serves posts n pages posts']: starting from the history [posts], the
    requests for the pages [n], [n+1], ... are answered with responses that
    unwrap to [pages], and [posts'] is the history afterwards. *)
Inductive serves : list Request → Z → list Element → list Request → Prop :=
  | serves_nil posts n : serves posts n [] posts
  | serves_cons posts n xml response page pages posts' :
      archer_incident_report_xml cfg archer_token guid n = Ok xml →
      requests_post w posts (page_request cfg url xml) = Ok response →
      response_to_xml lib response "SearchRecordsByReportResult" = Ok page →
      serves (posts ++ [page_request cfg url xml])%list (n + 1) pages posts' →
      serves posts n (page :: pages) posts'.

End Serves.

(** The rows the implementation makes of a page: the page's records
    normalized with the page's own schema. *)
Definition page_rows (page : Element) : Table :=
  get_report_records page (get_report_headers page).

(** A request of the loop for some page, built with the given token and
    report identifier. *)
Definition is_page_request (cfg : Config) (archer_token : option string) (guid url : string)
    (request : Request) : Prop :=
  ∃ n xml, archer_incident_report_xml cfg archer_token guid n = Ok xml
           ∧ request = page_request cfg url xml.

(** Builds a [serves] derivation for a concrete session by running it. *)
Ltac run_step :=
  match goal with
  | |- ?lhs = _ =>
      let v := eval vm_compute in lhs in
      transitivity v; [vm_compute; reflexivity | reflexivity]
  end.
Ltac run_session :=
  repeat (eapply serves_cons; [run_step | run_step | run_step |]);
  apply serves_nil.

(** The number of Record elements of a page. *)
Definition record_count (page : Element) : nat :=
  length (findall_desc page "Record").

(** A world whose HTTP responses carry other status codes, and are
    otherwise the same. *)
Definition with_status (f : Z → Z) (w : World) : World :=
  {| get_secret := get_secret w;
     requests_post := λ posts request,
       response ← requests_post w posts request;
       Ok {| Requests.status_code := f (Requests.status_code response);
             Requests.text := Requests.text response |};
     now := now w;
     upload := upload w |}.

(** A world whose vault holds [guid] under the report-identifier key. *)
Definition with_report_guid (guid : string) (w : World) : World :=
  {| get_secret := λ key,
       if String.eqb key "archer-prod-incident-report-guid"
       then Ok guid else get_secret w key;
     requests_post := requests_post w;
     now := now w;
     upload := upload w |}.

(** ** Calendar dates as timestamps *)

(** Days from 1970-01-01 to the given day of the proleptic Gregorian
    calendar. *)
Definition days_from_civil (y m d : Z) : Z :=
  let y' := if m <=? 2 then y - 1 else y in
  let era := y' / 400 in
  let yoe := y' - era * 400 in
  let doy := (153 * (if m <=? 2 then m + 9 else m - 3) + 2) / 5 + d - 1 in
  let doe := yoe * 365 + yoe / 4 - yoe / 100 + doy in
  era * 146097 + doe - 719468.

(** [pd.Timestamp(year=y, month=m, day=d, hour=hh, minute=mm).value] *)
Definition timestamp (y m d hh mm : Z) : Z :=
  days_from_civil y m d * NS_PER_DAY + (hh * 60 + mm) * 60000000000.

(** ** Sample sessions

    Documents are given as XML text together with the tree the text
    denotes; the sample parser knows exactly these documents. *)

Module Sample.

Definition attributes (l : list (string * string)) : gmap string string :=
  list_to_map l.

(** An inner report document: field definitions, then records whose
    fields are plain text. *)
Definition field_text (f : string * string) : string :=
  "<Field id='" ++ f.1 ++ "'>" ++ f.2 ++ "</Field>".
Definition record_text (r : list (string * string)) : string :=
  "<Record>" ++ String.concat "" (map field_text r) ++ "</Record>".
Definition definition_text (d : string * string) : string :=
  "<FieldDefinition id='" ++ d.1 ++ "' name='" ++ d.2 ++ "'/>".
Definition page_text (schema : list (string * string))
    (records : list (list (string * string))) : string :=
  "<Records>" ++ String.concat "" (map definition_text schema)
    ++ String.concat "" (map record_text records) ++ "</Records>".

Definition field_tree (f : string * string) : Element :=
  Elem "Field" (attributes [("id", f.1)]) (Some f.2) [].
Definition record_tree (r : list (string * string)) : Element :=
  Elem "Record" ∅ None (map field_tree r).
Definition definition_tree (d : string * string) : Element :=
  Elem "FieldDefinition" (attributes [("id", d.1); ("name", d.2)]) None [].
Definition page_tree (schema : list (string * string))
    (records : list (list (string * string))) : Element :=
  Elem "Records" ∅ None (map definition_tree schema ++ map record_tree records).

(** The SOAP envelope around a result element whose text is [inner]. *)
Definition envelope_text (result_name inner : string) : string :=
  "<Envelope xmlns='http://archer-tech.com/webservices/'><" ++ result_name
    ++ "><![CDATA[" ++ inner ++ "]]></" ++ result_name ++ "></Envelope>".
Definition envelope_tree (result_name inner : string) : Element :=
  Elem (webservices_ns ++ "Envelope") ∅ None
    [Elem (webservices_ns ++ result_name) ∅ (Some inner) []].

Definition titles : list (string * string) := [("1", "Title")].
Definition summaries : list (string * string) := [("1", "Summary")].
Definition dates : list (string * string) :=
  [("1", "Date Created"); ("2", "Date/Time Closed")].

Definition page_a := [[("1", "a1")]; [("1", "a2")]; [("1", "a3")]].
Definition page_b := [[("1", "b1")]; [("1", "b2")]].
Definition page_d := [[("1", "01/01/2024"); ("2", "05/01/2024")]].

Definition pages : list (list (string * string) * list (list (string * string))) :=
  [(titles, page_a); (titles, page_b); (titles, []);
   (summaries, page_b); (dates, page_d); (dates, [])].

Definition session_result : string := "CreateUserSessionFromInstanceResult".
Definition search_result : string := "SearchRecordsByReportResult".

Definition documents : list (string * Element) :=
  (envelope_text session_result "TOKEN-1", envelope_tree session_result "TOKEN-1")
  :: (map (λ p, (page_text p.1 p.2, page_tree p.1 p.2)) pages
      ++ map (λ p, (envelope_text search_result (page_text p.1 p.2),
                    envelope_tree search_result (page_text p.1 p.2))) pages).

Fixpoint parse (docs : list (string * Element)) (s : string) : result Element :=
  match docs with
  | [] => Raise ParseError
  | (t, e) :: docs' => if String.eqb t s then Ok e else parse docs' s
  end.

Definition calendar : list (string * Z) :=
  [("01/01/2024", timestamp 2024 1 1 0 0);
   ("05/01/2024", timestamp 2024 1 5 0 0);
   ("2024-01-01T10:00:00Z", timestamp 2024 1 1 10 0);
   ("2024-01-05T10:00:00Z", timestamp 2024 1 5 10 0);
   ("2024-01-05T10:00:00+02:00", timestamp 2024 1 5 8 0)].

Fixpoint parse_date (known : list (string * Z)) (s : string) : option Z :=
  match known with
  | [] => None
  | (t, v) :: known' => if String.eqb t s then Some v else parse_date known' s
  end.

(** Dates are read from [calendar]; a cell that ends in Z makes the whole
    column a UTC column, and a cell that ends in +02:00 beside one that does
    not makes the conversion raise. *)
Definition ends_with (suffix s : string) : bool :=
  PyStr.starts_with (String.rev suffix) (String.rev s).

Definition sample_to_datetime (cells : list (option string))
  : option DatetimeColumn :=
  let texts := omap id cells in
  let values := map (λ cell, cell ≫= parse_date calendar) cells in
  if forallb (ends_with "+02:00") texts then
    Some (if existsb (ends_with "+02:00") texts
          then Aware 7200000000000 values else Naive values)
  else if existsb (ends_with "+02:00") texts then None
  else if existsb (ends_with "Z") texts then Some (Aware 0 values)
  else Some (Naive values).

Definition lib : Lib :=
  {| fromstring := parse documents;
     to_datetime := sample_to_datetime |}.

Definition cfg : Config :=
  {| ARCHER_PROD_URL := "https://archer.example";
     INCIDENT_REPORT_TOKEN := "config-guid";
     DIRECTORY := "incidents";
     create_user_session_xml :=
       [Lit "<login user='"; Hole "username"; Lit "' instance='";
        Hole "instance_id"; Lit "' password='"; Hole "password"; Lit "'/>"];
     user_session_json := {["Content-Type" := "text/xml"]};
     archer_incident_report_xml_template :=
       [Lit "<search token='"; Hole "archer_token"; Lit "' report='";
        Hole "archer_incident_report_guid"; Lit "' page='";
        Hole "archer_page_number"; Lit "'/>"];
     search_records_by_report_json := {["Content-Type" := "text/xml"]} |}.

Definition secrets : list (string * string) :=
  [("archer-prod-password", "pw"); ("archer-prod-instance", "inst");
   ("archer-username", "svc"); ("archer-prod-incident-report-guid", "vault-guid");
   ("archer-search-url", "https://archer.example/ws/search.asmx")].

Fixpoint vault (known : list (string * string)) (key : string) : result string :=
  match known with
  | [] => Raise VaultError
  | (k, v) :: known' => if String.eqb k key then Ok v else vault known' key
  end.

Definition response (status : Z) (body : string) : result Response :=
  Ok {| Requests.status_code := status; Requests.text := body |}.

Definition page_response (status : Z)
    (p : list (string * string) * list (list (string * string))) : result Response :=
  response status (envelope_text search_result (page_text p.1 p.2)).

(** The endpoint answers the k-th request it receives with the k-th
    scripted response, and drops the connection afterwards. *)
Definition world (script : list (result Response)) : World :=
  {| get_secret := vault secrets;
     requests_post := λ posts _,
       nth (length posts) script (Raise RequestException);
     now := timestamp 2024 1 10 15 30;
     upload := λ _ _, Ok tt |}.

Definition login_ok : result Response :=
  response 200 (envelope_text session_result "TOKEN-1").
Definition login_refused : result Response :=
  response 500 "Internal Server Error".

(** Pages of 3, 2 and 0 records. *)
Definition three_two_zero : list (result Response) :=
  [page_response 200 (titles, page_a); page_response 200 (titles, page_b);
   page_response 200 (titles, [])].

(** The second page names field 1 differently. *)
Definition schema_changes : list (result Response) :=
  [page_response 200 (titles, page_a); page_response 200 (summaries, page_b);
   page_response 200 (titles, [])].

(** The second page request is answered with status 500 and a well-formed
    body. *)
Definition second_page_500 : list (result Response) :=
  [page_response 200 (dates, page_d); page_response 500 (dates, [])].

(** The second page request is answered with status 500 and a body that
    is not XML. *)
Definition second_page_unreadable : list (result Response) :=
  [page_response 200 (dates, page_d); response 500 "Internal Server Error"].

(** One page of one record, then the empty page. *)
Definition one_page : list (result Response) :=
  [page_response 200 (dates, page_d); page_response 200 (dates, [])].

Definition search_url : string := "https://archer.example/ws/search.asmx".

(** Two incidents created on 1 January 2024: one closed on 5 January, one
    still open. *)
Definition incidents : Table :=
  [ <[Some "Date/Time Closed" := "05/01/2024"]>
      {[Some "Date Created" := "01/01/2024"]};
    {[Some "Date Created" := "01/01/2024"]} ].

(** <Record><Field id='1'>first</Field><Field id='1'>second</Field></Record> *)
Definition twice_the_same_field : Element :=
  Elem "Record" ∅ None
    [Elem "Field" (attributes [("id", "1")]) (Some "first") [];
     Elem "Field" (attributes [("id", "1")]) (Some "second") []].

(** <Records><FieldDefinition id='1' name='Old'/>
    <FieldDefinition id='2' name='Other'/>
    <FieldDefinition id='1' name='New'/></Records> *)
Definition redefined_schema : Element :=
  Elem "Records" ∅ None
    [definition_tree ("1", "Old"); definition_tree ("2", "Other");
     definition_tree ("1", "New")].

(** A world like [world], with the given secrets in the vault. *)
Definition world_with (known : list (string * string))
    (script : list (result Response)) : World :=
  {| get_secret := vault known;
     requests_post := λ posts _,
       nth (length posts) script (Raise RequestException);
     now := timestamp 2024 1 10 15 30;
     upload := λ _ _, Ok tt |}.

(** An endpoint that answers every request with the same page of three
    records. *)
Definition always_full : World :=
  {| get_secret := vault secrets;
     requests_post := λ _ _, page_response 200 (titles, page_a);
     now := timestamp 2024 1 10 15 30;
     upload := λ _ _, Ok tt |}.



(** The vault without the user name, and without the report identifier. *)
Definition secrets_without_username : list (string * string) :=
  [("archer-prod-password", "pw"); ("archer-prod-instance", "inst");
   ("archer-prod-incident-report-guid", "vault-guid");
   ("archer-search-url", "https://archer.example/ws/search.asmx")].
Definition secrets_without_report_guid : list (string * string) :=
  [("archer-prod-password", "pw"); ("archer-prod-instance", "inst");
   ("archer-username", "svc");
   ("archer-search-url", "https://archer.example/ws/search.asmx")].

(** A report without records. *)
Definition empty_report : list (result Response) :=
  [page_response 200 (titles, [])].

(** An incident whose dates carry the Z designator, and a table whose
    Date Created column mixes a time without offset and a time with one. *)
Definition utc_incidents : Table :=
  [ <[Some "Date/Time Closed" := "2024-01-05T10:00:00Z"]>
      {[Some "Date Created" := "2024-01-01T10:00:00Z"]} ].
Definition mixed_incidents : Table :=
  [ <[Some "Date/Time Closed" := "05/01/2024"]>
      {[Some "Date Created" := "01/01/2024"]};
    <[Some "Date/Time Closed" := "05/01/2024"]>
      {[Some "Date Created" := "2024-01-05T10:00:00+02:00"]} ].

(** <Records><Record>fields</Record></Records> *)
Definition page_of_fields (fields : list Element) : Element :=
  Elem "Records" ∅ None [Elem "Record" ∅ None fields].

(** <Field id='8'>other</Field> *)
Definition other_field : Element :=
  Elem "Field" (attributes [("id", "8")]) (Some "other") [].

(** Fields of the four encodings. *)
Definition ada : Element :=
  Elem "Users" ∅ None
    [Elem "User" (attributes [("firstName", "Ada"); ("lastName", "Lovelace")])
       (Some "ada@example.org") []].

(** <Field id='7'>  open  <ListValues>...</ListValues><Reference>R-1</Reference>
    <Users>...</Users></Field> *)
Definition text_and_structure : Element :=
  Elem "Field" (attributes [("id", "7")]) (Some "  open  ")
    [Elem "ListValues" ∅ None
       [Elem "ListValue" (attributes [("displayName", "High")]) None []];
     Elem "Reference" ∅ (Some "R-1") [];
     ada].

(** <Field id='7'><Reference/><Users>...</Users></Field> *)
Definition empty_reference_and_user : Element :=
  Elem "Field" (attributes [("id", "7")]) None [Elem "Reference" ∅ None []; ada].

(** <Field id='7'><Reference/></Field> *)
Definition empty_reference : Element :=
  Elem "Field" (attributes [("id", "7")]) None [Elem "Reference" ∅ None []].

(** <Field id='7'><ListValues><ListValue displayName=''/></ListValues>
    <Reference> R-1 </Reference></Field> *)
Definition empty_label_and_reference : Element :=
  Elem "Field" (attributes [("id", "7")]) None
    [Elem "ListValues" ∅ None
       [Elem "ListValue" (attributes [("displayName", "")]) None []];
     Elem "Reference" ∅ (Some " R-1 ") []].

(** <Field id='7'><ListValues><ListValue/></ListValues><Reference/>
    <Users>...</Users></Field> *)
Definition no_label_and_user : Element :=
  Elem "Field" (attributes [("id", "7")]) None
    [Elem "ListValues" ∅ None [Elem "ListValue" ∅ None []];
     Elem "Reference" ∅ None [];
     ada].

(** <Field id='7'><ListValues><ListValue displayName='High'/></ListValues>
    <Reference>R-1</Reference></Field> *)
Definition label_and_reference : Element :=
  Elem "Field" (attributes [("id", "7")]) None
    [Elem "ListValues" ∅ None
       [Elem "ListValue" (attributes [("displayName", "High")]) None []];
     Elem "Reference" ∅ (Some "R-1") []].

End Sample.

(** * Properties *)

(** ** The record normalizer *)

Section Normalizer.
Implicit Types (report_headers : gmap (option string) (option string)).
Implicit Types (record_dict : gmap (option string) string).
Implicit Types (field : Element).

Lemma strip_empty_of_falsy t : PyStr.truthy t = false → PyStr.strip t = "".
Proof. by destruct t. Qed.

Lemma eqb_empty_false s : s ≠ "" → String.eqb s "" = false.
Proof. intros Hs. by apply String.eqb_neq. Qed.

Lemma text_stripped_some field t :
  text field = Some t → text_stripped field = PyStr.strip t.
Proof.
  intros Ht. unfold text_stripped. rewrite Ht.
  destruct (PyStr.truthy t) eqn:Htruthy; [done|].
  by rewrite strip_empty_of_falsy.
Qed.

(** When the text is empty the value is chosen among the three
    structured encodings, in this order and by truth value. *)
Lemma process_field_empty_text report_headers record_dict field :
  text_stripped field = "" →
  process_field report_headers record_dict field =
    let field_name := field_name_of report_headers field in
    match if_truthy (extract_list_value field) with
    | Some label => <[field_name := label]> record_dict
    | None =>
        match if_truthy (extract_reference field) with
        | Some ref => <[field_name := ref]> record_dict
        | None =>
            match extract_users field with
            | Some u => with_user field_name u record_dict
            | None => <[field_name := ""]> record_dict
            end
        end
    end.
Proof. intros Hempty. unfold process_field. by rewrite Hempty. Qed.

(** One iteration, plain text.  A field whose own text, trimmed, is not empty gets exactly that
    trimmed text as its value: the iteration of the normalizer's loop for
    the field writes it under the field's name and writes nothing else,
    whatever ListValues, Reference or Users elements the field contains
    and whatever the dictionary held before. *)
Lemma plain_text_wins report_headers record_dict field t :
  text field = Some t →
  PyStr.strip t ≠ "" →
  process_field report_headers record_dict field
    = <[field_name_of report_headers field := PyStr.strip t]> record_dict
  ∧ process_field report_headers record_dict field
      !! field_name_of report_headers field = Some (PyStr.strip t).
Proof.
  intros Ht Hne.
  assert (process_field report_headers record_dict field
          = <[field_name_of report_headers field := PyStr.strip t]> record_dict)
    as ->.
  { unfold process_field. rewrite (text_stripped_some _ _ Ht).
    by rewrite (eqb_empty_false _ Hne). }
  split; [done | apply lookup_insert_eq].
Qed.

(** One iteration, empty reference.  A field with empty trimmed text, no usable
    list label and a Reference element whose trimmed text is empty is
    handled like a field without Reference: user-identity extraction is
    tried next.  The value is the empty string when the field has no
    Users/User element; otherwise it is that user's trimmed text, and the
    first and last name are written next to it. *)
Lemma empty_reference_falls_through report_headers record_dict field :
  text_stripped field = "" →
  if_truthy (extract_list_value field) = None →
  extract_reference field = Some "" →
  process_field report_headers record_dict field =
    match extract_users field with
    | Some u => with_user (field_name_of report_headers field) u record_dict
    | None => <[field_name_of report_headers field := ""]> record_dict
    end.
Proof.
  intros Hempty Hlist Href.
  rewrite process_field_empty_text by done.
  cbv zeta. by rewrite Hlist, Href.
Qed.

(** One iteration, list value.  For a field with empty trimmed text whose first
    ListValues/ListValue element has no displayName attribute, or an empty
    one, the list value counts as not found: the value comes from the
    Reference element if its trimmed text is not empty, else from the
    Users/User element, else it is the empty string.  When the displayName
    attribute is a non-empty string, that label is the value. *)
Lemma list_label_needs_display_name report_headers record_dict field lv :
  text_stripped field = "" →
  find_desc_child field "ListValues" "ListValue" = Some lv →
  (get lv "displayName" = None ∨ get lv "displayName" = Some "" →
   process_field report_headers record_dict field =
     match if_truthy (extract_reference field) with
     | Some ref => <[field_name_of report_headers field := ref]> record_dict
     | None =>
         match extract_users field with
         | Some u => with_user (field_name_of report_headers field) u record_dict
         | None => <[field_name_of report_headers field := ""]> record_dict
         end
     end)
  ∧ (∀ label, get lv "displayName" = Some label → label ≠ "" →
     process_field report_headers record_dict field
       = <[field_name_of report_headers field := label]> record_dict).
Proof.
  intros Hempty Hfind.
  rewrite process_field_empty_text by done. cbv zeta.
  unfold extract_list_value. rewrite Hfind. split.
  - by intros [-> | ->].
  - intros label -> Hne. destruct label; done.
Qed.

End Normalizer.

(** ** The fetch loop *)

Section FetchLoop.
Context (lib : Lib) (cfg : Config) (w : World).
Context (archer_token : option string) (guid url : string).

Local Abbreviation serves := (serves lib cfg w archer_token guid url).

Lemma serves_app posts n pages1 pages2 posts'' :
  serves posts n (pages1 ++ pages2)%list posts'' ↔
  ∃ posts', serves posts n pages1 posts'
            ∧ serves posts' (n + Z.of_nat (length pages1)) pages2 posts''.
Proof.
  revert posts n. induction pages1 as [|page pages1 IH]; intros posts n.
  - cbn [app length]. replace (n + Z.of_nat 0) with n by lia. split.
    + intros H. exists posts. split; [constructor | done].
    + intros (posts' & H1 & H2). by inversion H1; subst.
  - cbn [app length].
    replace (n + Z.of_nat (S (length pages1)))
      with (n + 1 + Z.of_nat (length pages1)) by lia.
    split.
    + intros H.
      inversion H as [|? ? xml response ? ? ? Hxml Hpost Hunwrap Hrest]; subst.
      apply IH in Hrest as (posts' & H1 & H2).
      exists posts'. split; [by econstructor | done].
    + intros (posts' & H1 & H2).
      inversion H1 as [|? ? xml response ? ? ? Hxml Hpost Hunwrap Hrest]; subst.
      econstructor; [done..|]. apply IH. by exists posts'.
Qed.

Lemma serves_length posts n pages posts' :
  serves posts n pages posts' →
  length posts' = (length posts + length pages)%nat.
Proof.
  induction 1 as [|? ? ? ? ? ? ? _ _ _ _ IH]; simpl; [lia|].
  rewrite IH, length_app. simpl. lia.
Qed.

(** Pages with records keep the loop going; each is put in front of the
    table. *)
Lemma fetch_loop_serves posts n pages posts' :
  serves posts n pages posts' →
  Forall (λ page, record_count page ≠ 0%nat) pages →
  ∀ fuel final_df,
    fetch_loop lib cfg w (length pages + fuel) archer_token guid url posts n final_df
    = fetch_loop lib cfg w fuel archer_token guid url posts'
        (n + Z.of_nat (length pages))
        (concat (rev (map page_rows pages)) ++ final_df)%list.
Proof.
  induction 1 as [posts n|posts n xml response page pages posts'
                               Hxml Hpost Hunwrap Hrest IH];
    intros Hrecords fuel final_df.
  - cbn [length Nat.add map rev concat app].
    by replace (n + Z.of_nat 0) with n by lia.
  - apply Forall_cons in Hrecords as [Hpage Hpages].
    cbn [length Nat.add fetch_loop].
    rewrite Hxml, Hpost, Hunwrap.
    unfold record_count in Hpage.
    destruct (findall_desc page "Record") as [|r rs] eqn:Hfind; [done|].
    rewrite (IH Hpages). fold (page_rows page). f_equal; [lia|].
    cbn [map rev]. rewrite concat_app. cbn [concat].
    rewrite app_nil_r, <- app_assoc. done.
Qed.

(** A page without records ends the loop. *)
Lemma fetch_loop_last posts n last posts' fuel final_df :
  serves posts n [last] posts' →
  record_count last = 0%nat →
  fetch_loop lib cfg w (S fuel) archer_token guid url posts n final_df
  = (posts', Returned final_df).
Proof.
  intros Hserves Hlast.
  inversion Hserves as [|? ? xml response ? ? ? Hxml Hpost Hunwrap Hrest]; subst.
  inversion Hrest; subst.
  cbn [fetch_loop]. rewrite Hxml, Hpost, Hunwrap.
  apply length_zero_iff_nil in Hlast. unfold record_count in Hlast.
  by rewrite Hlast.
Qed.

Lemma fetch_returns posts pages last posts' fuel :
  serves posts 1 (pages ++ [last])%list posts' →
  Forall (λ page, record_count page ≠ 0%nat) pages →
  record_count last = 0%nat →
  (length pages < fuel)%nat →
  fetch_all_report_pages lib cfg w fuel archer_token guid url posts
  = (posts', Returned (concat (rev (map page_rows pages)))).
Proof.
  intros Hserves Hpages Hlast Hfuel.
  apply serves_app in Hserves as (mid & Hfirst & Hend).
  unfold fetch_all_report_pages.
  replace fuel with (length pages + S (fuel - S (length pages)))%nat by lia.
  rewrite (fetch_loop_serves _ _ _ _ Hfirst Hpages).
  rewrite (fetch_loop_last _ _ _ _ _ _ Hend Hlast).
  by rewrite app_nil_r.
Qed.

Lemma length_page_rows page : length (page_rows page) = record_count page.
Proof. unfold page_rows, get_report_records, record_count. apply length_map. Qed.

Lemma length_assembled pages :
  length (concat (rev (map page_rows pages)))
  = sum_list (map record_count pages).
Proof.
  induction pages as [|page pages IH]; [done|].
  cbn [map rev]. rewrite concat_app, length_app, IH. simpl.
  rewrite app_nil_r, length_page_rows. lia.
Qed.

End FetchLoop.

(** C4.  When the requests for pages 1, 2, ... are answered with pages that
    hold records and then with a page that holds none, the fetch returns
    after the request for that page and posts nothing more: one request per
    page with records plus one for the empty page.  The table has as many
    rows as the pages before the empty one have records.  With pages of 3, 2
    and 0 records, two pages of data are assembled and the table has 5
    rows. *)
Theorem pagination_stops_at_first_empty_page
    lib cfg w archer_token guid url posts posts' pages last fuel :
  serves lib cfg w archer_token guid url posts 1 (pages ++ [last])%list posts' →
  Forall (λ page, record_count page ≠ 0%nat) pages →
  record_count last = 0%nat →
  (length pages < fuel)%nat →
  fetch_all_report_pages lib cfg w fuel archer_token guid url posts
    = (posts', Returned (concat (rev (map page_rows pages))))
  ∧ length posts' = (length posts + length pages + 1)%nat
  ∧ length (concat (rev (map page_rows pages)))
      = sum_list (map record_count pages)
  ∧ (map record_count (pages ++ [last]) = [3; 2; 0]%nat →
     length pages = 2%nat
     ∧ length (concat (rev (map page_rows pages))) = 5%nat).
Proof.
  intros Hserves Hpages Hlast Hfuel.
  split; [by eapply fetch_returns|].
  split.
  { apply serves_length in Hserves. rewrite Hserves, length_app. simpl. lia. }
  split; [apply length_assembled|].
  intros Hcounts. rewrite length_assembled.
  destruct pages as [|p1 [|p2 [|p3 rest]]]; cbn [app map] in Hcounts;
    try discriminate Hcounts.
  - injection Hcounts as H1 H2 _. split; [done|].
    unfold sum_list. cbn [map sum_list_with]. rewrite H1, H2. done.
  - destruct rest; discriminate Hcounts.
Qed.

Lemma pagination_stops_at_first_empty_page_witness :
  let run :=
    fetch_all_report_pages Sample.lib Sample.cfg
      (Sample.world Sample.three_two_zero) 3 (Some "TOKEN-1") "report-1"
      Sample.search_url [] in
  length (fst run) = 3%nat
  ∧ snd run = Returned (page_rows (Sample.page_tree Sample.titles Sample.page_b)
                        ++ page_rows (Sample.page_tree Sample.titles Sample.page_a))%list
  ∧ length (page_rows (Sample.page_tree Sample.titles Sample.page_b)
            ++ page_rows (Sample.page_tree Sample.titles Sample.page_a))%list
    = 5%nat.
Proof.
  edestruct (pagination_stops_at_first_empty_page
               Sample.lib Sample.cfg (Sample.world Sample.three_two_zero)
               (Some "TOKEN-1") "report-1" Sample.search_url [])
    with (pages := [Sample.page_tree Sample.titles Sample.page_a;
                    Sample.page_tree Sample.titles Sample.page_b])
         (last := Sample.page_tree Sample.titles []) (fuel := 3%nat)
    as (Hrun & Hposts & _ & Hcounts).
  - run_session.
  - repeat constructor; discriminate.
  - reflexivity.
  - simpl. lia.
  - cbv zeta. rewrite Hrun. cbn [fst snd].
    split; [exact Hposts|]. split; [reflexivity|].
    exact (proj2 (Hcounts eq_refl)).
Defined.

(** C6.  Each page read is put in front of the pages read before it: the
    table returned is the rows of the last page with records, then those of
    the page before it, and so on down to the first page.  For any two
    consecutive pages p and q, the rows of q come immediately before the rows
    of p, and the rows of a page are its records in document order. *)
Theorem pages_are_prepended
    lib cfg w archer_token guid url posts posts' pages last fuel :
  serves lib cfg w archer_token guid url posts 1 (pages ++ [last])%list posts' →
  Forall (λ page, record_count page ≠ 0%nat) pages →
  record_count last = 0%nat →
  (length pages < fuel)%nat →
  snd (fetch_all_report_pages lib cfg w fuel archer_token guid url posts)
    = Returned (concat (rev (map page_rows pages)))
  ∧ (∀ before p q after, pages = (before ++ p :: q :: after)%list →
       concat (rev (map page_rows pages))
       = (concat (rev (map page_rows after)) ++ page_rows q ++ page_rows p
            ++ concat (rev (map page_rows before)))%list)
  ∧ (∀ page, page_rows page
             = map (record_to_dict (get_report_headers page))
                 (findall_desc page "Record")).
Proof.
  intros Hserves Hpages Hlast Hfuel.
  split; [by erewrite fetch_returns|].
  split; [|done].
  intros before p q after ->.
  rewrite map_app. cbn [map]. rewrite rev_app_distr. cbn [rev].
  rewrite !concat_app. cbn [concat]. rewrite !app_nil_r.
  by rewrite <- !app_assoc.
Qed.

Lemma pages_are_prepended_witness :
  snd (fetch_all_report_pages Sample.lib Sample.cfg
         (Sample.world Sample.three_two_zero) 3 (Some "TOKEN-1") "report-1"
         Sample.search_url [])
  = Returned [ {[Some "Title" := "b1"]}; {[Some "Title" := "b2"]};
               {[Some "Title" := "a1"]}; {[Some "Title" := "a2"]};
               {[Some "Title" := "a3"]} ].
Proof.
  edestruct (pages_are_prepended
               Sample.lib Sample.cfg (Sample.world Sample.three_two_zero)
               (Some "TOKEN-1") "report-1" Sample.search_url [])
    with (pages := [Sample.page_tree Sample.titles Sample.page_a;
                    Sample.page_tree Sample.titles Sample.page_b])
         (last := Sample.page_tree Sample.titles []) (fuel := 3%nat)
    as (Hrun & _ & _).
  - run_session.
  - repeat constructor; discriminate.
  - reflexivity.
  - simpl. lia.
  - rewrite Hrun. reflexivity.
Defined.

(** ** The schema used for a page *)

Section Schema.
Context (lib : Lib) (cfg : Config) (w : World).
Context (archer_token : option string) (guid url : string).

Local Abbreviation serves := (serves lib cfg w archer_token guid url).

(** Once the schema is fixed, the model normalizes every page with it. *)
Lemma first_schema_loop_serves posts n pages posts' :
  serves posts n pages posts' →
  Forall (λ page, record_count page ≠ 0%nat) pages →
  ∀ fuel schema final_df,
    fetch_loop_first_schema lib cfg w (length pages + fuel) archer_token guid url
      (Some schema) posts n final_df
    = fetch_loop_first_schema lib cfg w fuel archer_token guid url
        (Some schema) posts' (n + Z.of_nat (length pages))
        (concat (rev (map (λ page, get_report_records page schema) pages))
           ++ final_df)%list.
Proof.
  induction 1 as [posts n|posts n xml response page pages posts'
                               Hxml Hpost Hunwrap Hrest IH];
    intros Hrecords fuel schema final_df.
  - cbn [length Nat.add map rev concat app].
    by replace (n + Z.of_nat 0) with n by lia.
  - apply Forall_cons in Hrecords as [Hpage Hpages].
    cbn [length Nat.add fetch_loop_first_schema].
    rewrite Hxml, Hpost, Hunwrap.
    unfold record_count in Hpage.
    destruct (findall_desc page "Record") as [|r rs] eqn:Hfind; [done|].
    cbn [default]. rewrite (IH Hpages). f_equal; [lia|].
    cbn [map rev]. rewrite concat_app. cbn [concat].
    rewrite app_nil_r, <- app_assoc. done.
Qed.

(** The first page fixes the schema. *)
Lemma first_schema_loop_first posts n xml response page fuel final_df :
  archer_incident_report_xml cfg archer_token guid n = Ok xml →
  requests_post w posts (page_request cfg url xml) = Ok response →
  response_to_xml lib response "SearchRecordsByReportResult" = Ok page →
  record_count page ≠ 0%nat →
  fetch_loop_first_schema lib cfg w (S fuel) archer_token guid url None
    posts n final_df
  = fetch_loop_first_schema lib cfg w fuel archer_token guid url
      (Some (get_report_headers page)) (posts ++ [page_request cfg url xml])%list
      (n + 1) (page_rows page ++ final_df)%list.
Proof.
  intros Hxml Hpost Hunwrap Hpage.
  cbn [fetch_loop_first_schema]. rewrite Hxml, Hpost, Hunwrap.
  unfold record_count in Hpage.
  by destruct (findall_desc page "Record") as [|r rs] eqn:Hfind.
Qed.

Lemma first_schema_loop_last posts n last posts' fuel schema final_df :
  serves posts n [last] posts' →
  record_count last = 0%nat →
  fetch_loop_first_schema lib cfg w (S fuel) archer_token guid url schema
    posts n final_df
  = (posts', Returned final_df).
Proof.
  intros Hserves Hlast.
  inversion Hserves as [|? ? xml response ? ? ? Hxml Hpost Hunwrap Hrest]; subst.
  inversion Hrest; subst.
  cbn [fetch_loop_first_schema]. rewrite Hxml, Hpost, Hunwrap.
  apply length_zero_iff_nil in Hlast. unfold record_count in Hlast.
  by rewrite Hlast.
Qed.

Lemma same_schema_same_rows first rest :
  Forall (λ page, get_report_headers page = get_report_headers first) rest →
  map (λ page, get_report_records page (get_report_headers first)) rest
  = map page_rows rest.
Proof.
  induction 1 as [|page rest Hpage _ IH]; [done|].
  cbn [map]. rewrite IH. unfold page_rows. by rewrite Hpage.
Qed.

(** C7, as the code has it.  The schema used to normalize the records of
    a page is the one extracted from that same page.  Building the schema
    once from the first page gives the same run whenever every later page
    with records carries the same schema as the first. *)
Theorem each_page_uses_its_own_schema posts posts' pages last fuel :
  serves posts 1 (pages ++ [last])%list posts' →
  Forall (λ page, record_count page ≠ 0%nat) pages →
  record_count last = 0%nat →
  (length pages < fuel)%nat →
  fetch_all_report_pages lib cfg w fuel archer_token guid url posts
    = (posts',
       Returned
         (concat (rev (map (λ page,
                             get_report_records page (get_report_headers page))
                         pages))))
  ∧ (∀ first rest, pages = first :: rest →
       Forall (λ page, get_report_headers page = get_report_headers first) rest →
       fetch_all_first_schema lib cfg w fuel archer_token guid url posts
       = fetch_all_report_pages lib cfg w fuel archer_token guid url posts).
Proof.
  intros Hserves Hpages Hlast Hfuel.
  pose proof (fetch_returns _ _ _ _ _ _ _ _ _ _ _ Hserves Hpages Hlast Hfuel)
    as Hrun.
  split; [exact Hrun|].
  intros first rest -> Hsame. rewrite Hrun.
  cbn [app] in Hserves.
  inversion Hserves as [|? ? xml response ? ? ? Hxml Hpost Hunwrap Hrest]; subst.
  apply serves_app in Hrest as (mid & Hrest & Hend).
  apply Forall_cons in Hpages as [Hfirst Hpages].
  cbn [length] in Hfuel.
  unfold fetch_all_first_schema.
  replace fuel with (S (length rest + S (fuel - S (S (length rest)))))%nat by lia.
  rewrite (first_schema_loop_first _ _ _ _ _ _ _ Hxml Hpost Hunwrap Hfirst).
  rewrite (first_schema_loop_serves _ _ _ _ Hrest Hpages).
  rewrite (first_schema_loop_last _ _ _ _ _ _ _ Hend Hlast).
  rewrite (same_schema_same_rows _ _ Hsame).
  cbn [map rev]. rewrite concat_app. cbn [concat].
  by rewrite !app_nil_r.
Qed.

End Schema.

Lemma each_page_uses_its_own_schema_witness :
  fetch_all_first_schema Sample.lib Sample.cfg
    (Sample.world Sample.three_two_zero) 3 (Some "TOKEN-1") "report-1"
    Sample.search_url []
  = fetch_all_report_pages Sample.lib Sample.cfg
      (Sample.world Sample.three_two_zero) 3 (Some "TOKEN-1") "report-1"
      Sample.search_url [].
Proof.
  edestruct (each_page_uses_its_own_schema
               Sample.lib Sample.cfg (Sample.world Sample.three_two_zero)
               (Some "TOKEN-1") "report-1" Sample.search_url [])
    with (pages := [Sample.page_tree Sample.titles Sample.page_a;
                    Sample.page_tree Sample.titles Sample.page_b])
         (last := Sample.page_tree Sample.titles []) (fuel := 3%nat)
    as (_ & Hsame).
  - run_session.
  - repeat constructor; discriminate.
  - reflexivity.
  - simpl. lia.
  - apply (Hsame _ _ eq_refl). repeat constructor.
Defined.

(** C7 fails on a session whose second page names field 1 differently:
    the code files the value under the second page's name, the first page's
    schema under the first page's name. *)
Lemma first_page_schema_counterexample :
  let code :=
    fetch_all_report_pages Sample.lib Sample.cfg
      (Sample.world Sample.schema_changes) 3 (Some "TOKEN-1") "report-1"
      Sample.search_url [] in
  let model :=
    fetch_all_first_schema Sample.lib Sample.cfg
      (Sample.world Sample.schema_changes) 3 (Some "TOKEN-1") "report-1"
      Sample.search_url [] in
  snd code = Returned [ {[Some "Summary" := "b1"]}; {[Some "Summary" := "b2"]};
                        {[Some "Title" := "a1"]}; {[Some "Title" := "a2"]};
                        {[Some "Title" := "a3"]} ]
  ∧ snd model = Returned [ {[Some "Title" := "b1"]}; {[Some "Title" := "b2"]};
                           {[Some "Title" := "a1"]}; {[Some "Title" := "a2"]};
                           {[Some "Title" := "a3"]} ]
  ∧ snd code ≠ snd model.
Proof.
  cbv zeta. split; [reflexivity|]. split; [reflexivity|].
  intros Heq.
  apply (f_equal (λ o, match o with
                       | Returned t => t !! 0%nat ≫= (λ row, row !! Some "Title")
                       | _ => None
                       end)) in Heq.
  vm_compute in Heq. discriminate Heq.
Qed.

(** ** What the fetch loop posts, and what it reads of a response *)

Section Posts.
Context (lib : Lib) (cfg : Config) (w : World).

Lemma fetch_loop_posts fuel archer_token guid url posts n final_df :
  ∃ new,
    fst (fetch_loop lib cfg w fuel archer_token guid url posts n final_df)
      = (posts ++ new)%list
    ∧ Forall (is_page_request cfg archer_token guid url) new.
Proof.
  revert posts n final_df.
  induction fuel as [|fuel IH]; intros posts n final_df; cbn [fetch_loop].
  { exists []. by rewrite app_nil_r. }
  destruct (archer_incident_report_xml cfg archer_token guid n)
    as [xml|e] eqn:Hxml; [|exists []; by rewrite app_nil_r].
  assert (Forall (is_page_request cfg archer_token guid url)
            [page_request cfg url xml]) as Hone.
  { repeat constructor. by exists n, xml. }
  destruct (requests_post w posts (page_request cfg url xml)) as [response|e];
    [|by eexists].
  destruct (response_to_xml lib response "SearchRecordsByReportResult")
    as [page|e]; [|by eexists].
  destruct (findall_desc page "Record") as [|r rs]; [by eexists|].
  destruct (IH (posts ++ [page_request cfg url xml])%list (n + 1)
              (get_report_records page (get_report_headers page) ++ final_df)%list)
    as (new & -> & Hnew).
  exists (page_request cfg url xml :: new). split.
  - by rewrite <- app_assoc.
  - by constructor; [exists n, xml|].
Qed.

(** The first request of the loop is posted as soon as it can be built. *)
Lemma fetch_loop_first_post fuel archer_token guid url posts n final_df xml :
  archer_incident_report_xml cfg archer_token guid n = Ok xml →
  ∃ more,
    fst (fetch_loop lib cfg w (S fuel) archer_token guid url posts n final_df)
      = (posts ++ page_request cfg url xml :: more)%list.
Proof.
  intros Hxml. cbn [fetch_loop]. rewrite Hxml.
  destruct (requests_post w posts (page_request cfg url xml)) as [response|e];
    [|by exists []].
  destruct (response_to_xml lib response "SearchRecordsByReportResult")
    as [page|e]; [|by exists []].
  destruct (findall_desc page "Record") as [|r rs]; [by exists []|].
  destruct (fetch_loop_posts fuel archer_token guid url
              (posts ++ [page_request cfg url xml])%list (n + 1)
              (get_report_records page (get_report_headers page) ++ final_df)%list)
    as (new & -> & _).
  exists new. by rewrite <- app_assoc.
Qed.

(** The loop reads the body of a response and never its status. *)
Lemma fetch_loop_with_status f fuel archer_token guid url posts n final_df :
  fetch_loop lib cfg (with_status f w) fuel archer_token guid url posts n final_df
  = fetch_loop lib cfg w fuel archer_token guid url posts n final_df.
Proof.
  revert posts n final_df.
  induction fuel as [|fuel IH]; intros posts n final_df; [done|].
  cbn [fetch_loop].
  destruct (archer_incident_report_xml cfg archer_token guid n) as [xml|e];
    [|done].
  cbn [with_status requests_post].
  destruct (requests_post w posts (page_request cfg url xml)) as [response|e];
    [|done].
  cbn [mbind result_bind]. unfold response_to_xml at 1. cbn [Requests.text].
  fold (response_to_xml lib response "SearchRecordsByReportResult").
  destruct (response_to_xml lib response "SearchRecordsByReportResult")
    as [page|e]; [|done].
  destruct (findall_desc page "Record") as [|r rs]; [done|].
  apply IH.
Qed.

(** A request that raises, or a body that does not unwrap, ends the loop
    with that exception. *)
Lemma fetch_loop_raises fuel archer_token guid url posts n final_df xml e :
  archer_incident_report_xml cfg archer_token guid n = Ok xml →
  requests_post w posts (page_request cfg url xml) = Raise e
  ∨ (∃ response,
       requests_post w posts (page_request cfg url xml) = Ok response
       ∧ response_to_xml lib response "SearchRecordsByReportResult" = Raise e) →
  fetch_loop lib cfg w (S fuel) archer_token guid url posts n final_df
  = ((posts ++ [page_request cfg url xml])%list, Raised e).
Proof.
  intros Hxml [Hpost | (response & Hpost & Hunwrap)];
    cbn [fetch_loop]; rewrite Hxml, Hpost; [done|].
  by rewrite Hunwrap.
Qed.

End Posts.

(** ** The run of [main] *)

Section Run.
Context (lib : Lib) (cfg : Config) (w : World).

(** Once the handshake has returned and the two secrets are read, [main]
    calls the fetcher, and what [main] posts is what the fetcher posts. *)
Lemma main_after_auth fuel posts archer_token guid url :
  archer_auth_token lib cfg w (ARCHER_PROD_URL cfg) [] = (posts, Ok archer_token) →
  get_secret w "archer-prod-incident-report-guid" = Ok guid →
  get_secret w "archer-search-url" = Ok url →
  fetch_call (main lib cfg w fuel)
    = Some (archer_token, INCIDENT_REPORT_TOKEN cfg, url)
  ∧ posted (main lib cfg w fuel)
    = fst (fetch_all_report_pages lib cfg w fuel archer_token
             (INCIDENT_REPORT_TOKEN cfg) url posts).
Proof.
  intros Hauth Hguid Hurl. unfold main. rewrite Hauth, Hguid.
  cbn [mbind result_bind]. rewrite Hurl. cbn [mbind result_bind].
  destruct (fetch_all_report_pages lib cfg w fuel archer_token
              (INCIDENT_REPORT_TOKEN cfg) url posts) as [posts' [df|e|]];
    [|split; reflexivity..].
  destruct (enrich lib w df) as [df'|e]; [|split; reflexivity].
  destruct (upload w _ df'); split; reflexivity.
Qed.

(** An exception of the fetcher ends the run; nothing is uploaded. *)
Lemma main_fetch_failed fuel posts archer_token guid url posts' e :
  archer_auth_token lib cfg w (ARCHER_PROD_URL cfg) [] = (posts, Ok archer_token) →
  get_secret w "archer-prod-incident-report-guid" = Ok guid →
  get_secret w "archer-search-url" = Ok url →
  fetch_all_report_pages lib cfg w fuel archer_token
    (INCIDENT_REPORT_TOKEN cfg) url posts = (posts', Raised e) →
  main lib cfg w fuel
  = {| posted := posts';
       fetch_call := Some (archer_token, INCIDENT_REPORT_TOKEN cfg, url);
       ending := FetchFailed e |}.
Proof.
  intros Hauth Hguid Hurl Hfetch. unfold main. rewrite Hauth, Hguid.
  cbn [mbind result_bind]. rewrite Hurl. cbn [mbind result_bind].
  by rewrite Hfetch.
Qed.

(** A secret lookup that raises during the handshake ends the run before
    anything is posted. *)
Lemma main_secret_failure fuel e :
  create_user_session_request cfg w (ARCHER_PROD_URL cfg) = Raise e →
  main lib cfg w fuel
  = {| posted := []; fetch_call := None; ending := AuthFailed e |}.
Proof. intros Hreq. unfold main, archer_auth_token. by rewrite Hreq. Qed.

(** The handshake returns normally on a status other than 200. *)
Lemma archer_auth_token_refused archer_url posts request response :
  create_user_session_request cfg w archer_url = Ok request →
  requests_post w posts request = Ok response →
  Requests.status_code response ≠ 200 →
  archer_auth_token lib cfg w archer_url posts
  = ((posts ++ [request])%list,
     Ok (Some ("Error: " ++ PyStr.of_Z (Requests.status_code response)))).
Proof.
  intros Hreq Hpost Hstatus. unfold archer_auth_token. rewrite Hreq, Hpost.
  by destruct (Z.eqb_spec (Requests.status_code response) 200).
Qed.

End Run.

(** C2.  The code does not abort on a refused handshake.  When the secrets
    are read and the authentication endpoint answers with a status other
    than 200, [archer_auth_token] returns the text "Error: <status>", [main]
    takes it for the session token, calls the fetcher with it and posts the
    request for page 1 carrying it. *)
Theorem refused_handshake_still_fetches
    lib cfg w fuel request response guid url :
  create_user_session_request cfg w (ARCHER_PROD_URL cfg) = Ok request →
  requests_post w [] request = Ok response →
  Requests.status_code response ≠ 200 →
  get_secret w "archer-prod-incident-report-guid" = Ok guid →
  get_secret w "archer-search-url" = Ok url →
  let token := Some ("Error: " ++ PyStr.of_Z (Requests.status_code response)) in
  fetch_call (main lib cfg w fuel) = Some (token, INCIDENT_REPORT_TOKEN cfg, url)
  ∧ (∀ xml, (0 < fuel)%nat →
       archer_incident_report_xml cfg token (INCIDENT_REPORT_TOKEN cfg) 1 = Ok xml →
       ∃ more, posted (main lib cfg w fuel)
               = request :: page_request cfg url xml :: more).
Proof.
  intros Hreq Hpost Hstatus Hguid Hurl. cbv zeta.
  pose proof (archer_auth_token_refused lib cfg w _ [] _ _ Hreq Hpost Hstatus)
    as Hauth.
  destruct (main_after_auth lib cfg w fuel _ _ _ _ Hauth Hguid Hurl)
    as [Hcall Hposted].
  split; [exact Hcall|].
  intros xml Hfuel Hxml. rewrite Hposted. unfold fetch_all_report_pages.
  destruct fuel as [|fuel]; [lia|].
  destruct (fetch_loop_first_post lib cfg w fuel _
              (INCIDENT_REPORT_TOKEN cfg) url ([] ++ [request])%list 1 [] xml Hxml)
    as [more ->].
  by exists more.
Qed.

Lemma refused_handshake_still_fetches_witness :
  let run :=
    main Sample.lib Sample.cfg
      (Sample.world (Sample.login_refused :: Sample.one_page)) 3 in
  fetch_call run = Some (Some "Error: 500", "config-guid", Sample.search_url)
  ∧ map Requests.data (posted run)
    = ["<login user='svc' instance='inst' password='pw'/>";
       "<search token='Error: 500' report='config-guid' page='1'/>";
       "<search token='Error: 500' report='config-guid' page='2'/>"]
  ∧ match ending run with Uploaded _ _ => True | _ => False end.
Proof.
  cbv zeta. split; [|split; [reflexivity | exact I]].
  eapply (proj1 (refused_handshake_still_fetches
                   Sample.lib Sample.cfg
                   (Sample.world (Sample.login_refused :: Sample.one_page)) 3
                   _ _ "vault-guid" Sample.search_url
                   eq_refl eq_refl ltac:(discriminate) eq_refl eq_refl)).
Defined.

(** ** The report identifier *)

Section ReportIdentifier.
Context (lib : Lib) (cfg : Config) (w : World).

(** The handshake does not read the report identifier. *)
Lemma create_user_session_request_with_report_guid guid archer_url :
  create_user_session_request cfg (with_report_guid guid w) archer_url
  = create_user_session_request cfg w archer_url.
Proof.
  unfold create_user_session_request.
  by destruct (PyStr.contains "uat" archer_url).
Qed.

Lemma archer_auth_token_with_report_guid guid archer_url posts :
  archer_auth_token lib cfg (with_report_guid guid w) archer_url posts
  = archer_auth_token lib cfg w archer_url posts.
Proof.
  unfold archer_auth_token.
  by rewrite create_user_session_request_with_report_guid.
Qed.

(** The fetch loop reads nothing from the vault. *)
Lemma fetch_loop_with_report_guid g fuel archer_token guid url posts n final_df :
  fetch_loop lib cfg (with_report_guid g w) fuel archer_token guid url
    posts n final_df
  = fetch_loop lib cfg w fuel archer_token guid url posts n final_df.
Proof.
  revert posts n final_df.
  induction fuel as [|fuel IH]; intros posts n final_df; [done|].
  cbn [fetch_loop with_report_guid requests_post].
  destruct (archer_incident_report_xml cfg archer_token guid n) as [xml|e];
    [|done].
  destruct (requests_post w posts (page_request cfg url xml)) as [response|e];
    [|done].
  destruct (response_to_xml lib response "SearchRecordsByReportResult")
    as [page|e]; [|done].
  destruct (findall_desc page "Record") as [|r rs]; [done|].
  apply IH.
Qed.

(** The run of [main] does not depend on the report identifier held by
    the vault. *)
Lemma main_with_report_guid g1 g2 fuel :
  main lib cfg (with_report_guid g1 w) fuel
  = main lib cfg (with_report_guid g2 w) fuel.
Proof.
  unfold main. rewrite !archer_auth_token_with_report_guid.
  destruct (archer_auth_token lib cfg w (ARCHER_PROD_URL cfg) [])
    as [posts [archer_token|e]]; [|done].
  change (get_secret (with_report_guid g1 w) "archer-prod-incident-report-guid")
    with (@Ok string g1).
  change (get_secret (with_report_guid g2 w) "archer-prod-incident-report-guid")
    with (@Ok string g2).
  change (get_secret (with_report_guid g1 w) "archer-search-url")
    with (get_secret w "archer-search-url").
  change (get_secret (with_report_guid g2 w) "archer-search-url")
    with (get_secret w "archer-search-url").
  cbn [mbind result_bind].
  destruct (get_secret w "archer-search-url") as [url|e]; [|done].
  cbn [mbind result_bind].
  unfold fetch_all_report_pages. by rewrite !fetch_loop_with_report_guid.
Qed.

(** C3, as the code has it.  The report identifier of every page request
    is the constant [INCIDENT_REPORT_TOKEN] of the configuration: when
    [main] calls the fetcher, it passes that constant, and the requests
    posted after those of the handshake are page requests built with it.
    The identifier read from the vault is not used: replacing it by any
    other value leaves the whole run unchanged. *)
Theorem page_requests_use_configured_report fuel :
  (∀ archer_token guid url,
     fetch_call (main lib cfg w fuel) = Some (archer_token, guid, url) →
     guid = INCIDENT_REPORT_TOKEN cfg
     ∧ ∃ page_posts,
         posted (main lib cfg w fuel)
           = (fst (archer_auth_token lib cfg w (ARCHER_PROD_URL cfg) [])
                ++ page_posts)%list
         ∧ Forall (is_page_request cfg archer_token
                     (INCIDENT_REPORT_TOKEN cfg) url) page_posts)
  ∧ (∀ g1 g2,
       main lib cfg (with_report_guid g1 w) fuel
       = main lib cfg (with_report_guid g2 w) fuel).
Proof.
  split; [|intros; apply main_with_report_guid].
  intros archer_token guid url Hcall.
  destruct (archer_auth_token lib cfg w (ARCHER_PROD_URL cfg) [])
    as [posts [token|e]] eqn:Hauth;
    [|unfold main in Hcall; by rewrite Hauth in Hcall].
  destruct (get_secret w "archer-prod-incident-report-guid")
    as [vault_guid|e] eqn:Hguid;
    [|unfold main in Hcall; by rewrite Hauth, Hguid in Hcall].
  destruct (get_secret w "archer-search-url") as [search_url|e] eqn:Hurl;
    [|unfold main in Hcall; rewrite Hauth, Hguid in Hcall;
      cbn [mbind result_bind] in Hcall; by rewrite Hurl in Hcall].
  destruct (main_after_auth lib cfg w fuel _ _ _ _ Hauth Hguid Hurl)
    as [Hcall' Hposted].
  rewrite Hcall' in Hcall. injection Hcall as <- <- <-.
  split; [done|]. rewrite Hposted. cbn [fst].
  apply fetch_loop_posts.
Qed.

End ReportIdentifier.

Lemma page_requests_use_configured_report_witness :
  let run :=
    main Sample.lib Sample.cfg
      (Sample.world (Sample.login_ok :: Sample.one_page)) 3 in
  INCIDENT_REPORT_TOKEN Sample.cfg = "config-guid"
  ∧ ∃ page_posts,
      posted run
        = (fst (archer_auth_token Sample.lib Sample.cfg
                  (Sample.world (Sample.login_ok :: Sample.one_page))
                  (ARCHER_PROD_URL Sample.cfg) []) ++ page_posts)%list
      ∧ Forall (is_page_request Sample.cfg (Some "TOKEN-1") "config-guid"
                  Sample.search_url) page_posts.
Proof.
  cbv zeta. split; [reflexivity|].
  exact (proj2 (proj1 (page_requests_use_configured_report
                         Sample.lib Sample.cfg
                         (Sample.world (Sample.login_ok :: Sample.one_page)) 3)
                  (Some "TOKEN-1") "config-guid" Sample.search_url eq_refl)).
Defined.

(** C3 fails whenever the vault and the configuration disagree: the vault
    holds "vault-guid", and the page requests carry "config-guid". *)
Lemma vault_report_guid_counterexample :
  let w := Sample.world (Sample.login_ok :: Sample.one_page) in
  let run := main Sample.lib Sample.cfg w 3 in
  get_secret w "archer-prod-incident-report-guid" = Ok "vault-guid"
  ∧ map Requests.data (posted run)
    = ["<login user='svc' instance='inst' password='pw'/>";
       "<search token='TOKEN-1' report='config-guid' page='1'/>";
       "<search token='TOKEN-1' report='config-guid' page='2'/>"]
  ∧ archer_incident_report_xml Sample.cfg (Some "TOKEN-1") "vault-guid" 1
    = Ok "<search token='TOKEN-1' report='vault-guid' page='1'/>"
  ∧ Requests.data <$> posted run !! 1%nat
    ≠ Some "<search token='TOKEN-1' report='vault-guid' page='1'/>".
Proof.
  cbv zeta. split; [reflexivity|]. split; [reflexivity|]. split; [reflexivity|].
  vm_compute. discriminate.
Qed.

(** ** Responses with an error status *)

(** C8, as the code has it.  The fetcher never reads the status of a
    response: changing the status codes of the responses leaves the fetch
    unchanged.  The fetch is aborted, with an exception that leaves
    [fetch_all_report_pages], when a page request itself raises or when the
    body of its response does not unwrap; [main] then ends without uploading
    anything, the rows of the earlier pages included. *)
Theorem fetch_aborts_on_exceptions_not_status
    lib cfg w fuel archer_token guid url posts :
  (∀ f,
     fetch_all_report_pages lib cfg (with_status f w) fuel archer_token guid
       url posts
     = fetch_all_report_pages lib cfg w fuel archer_token guid url posts)
  ∧ (∀ pages posts' xml e,
       serves lib cfg w archer_token guid url posts 1 pages posts' →
       Forall (λ page, record_count page ≠ 0%nat) pages →
       (length pages < fuel)%nat →
       archer_incident_report_xml cfg archer_token guid
         (1 + Z.of_nat (length pages)) = Ok xml →
       requests_post w posts' (page_request cfg url xml) = Raise e
       ∨ (∃ response,
            requests_post w posts' (page_request cfg url xml) = Ok response
            ∧ response_to_xml lib response "SearchRecordsByReportResult"
              = Raise e) →
       fetch_all_report_pages lib cfg w fuel archer_token guid url posts
       = ((posts' ++ [page_request cfg url xml])%list, Raised e))
  ∧ (∀ vault_guid posts' e,
       archer_auth_token lib cfg w (ARCHER_PROD_URL cfg) []
         = (posts, Ok archer_token) →
       get_secret w "archer-prod-incident-report-guid" = Ok vault_guid →
       get_secret w "archer-search-url" = Ok url →
       guid = INCIDENT_REPORT_TOKEN cfg →
       fetch_all_report_pages lib cfg w fuel archer_token guid url posts
         = (posts', Raised e) →
       main lib cfg w fuel
       = {| posted := posts';
            fetch_call := Some (archer_token, guid, url);
            ending := FetchFailed e |}).
Proof.
  split; [intros f; apply fetch_loop_with_status|].
  split.
  - intros pages posts' xml e Hserves Hpages Hfuel Hxml Hfail.
    unfold fetch_all_report_pages.
    replace fuel with (length pages + S (fuel - S (length pages)))%nat by lia.
    rewrite (fetch_loop_serves _ _ _ _ _ _ _ _ _ _ Hserves Hpages).
    by apply fetch_loop_raises.
  - intros vault_guid posts' e Hauth Hguid Hurl -> Hfetch.
    by eapply main_fetch_failed.
Qed.

Lemma fetch_aborts_on_exceptions_not_status_witness :
  main Sample.lib Sample.cfg
    (Sample.world (Sample.login_ok :: Sample.second_page_unreadable)) 3
  = {| posted :=
         fst (fetch_all_report_pages Sample.lib Sample.cfg
                (Sample.world (Sample.login_ok :: Sample.second_page_unreadable))
                3 (Some "TOKEN-1") "config-guid" Sample.search_url
                (fst (archer_auth_token Sample.lib Sample.cfg
                        (Sample.world
                           (Sample.login_ok :: Sample.second_page_unreadable))
                        (ARCHER_PROD_URL Sample.cfg) [])));
       fetch_call := Some (Some "TOKEN-1", "config-guid", Sample.search_url);
       ending := FetchFailed ParseError |}.
Proof.
  apply (proj2 (proj2 (fetch_aborts_on_exceptions_not_status
                         Sample.lib Sample.cfg
                         (Sample.world
                            (Sample.login_ok :: Sample.second_page_unreadable))
                         3 (Some "TOKEN-1") "config-guid" Sample.search_url _))
           "vault-guid" _ ParseError eq_refl eq_refl eq_refl eq_refl eq_refl).
Defined.

(** C8 fails when a response with an error status has a body that
    unwraps.  The second page request is answered with status 500 and an
    empty report: the fetch returns the rows of the first page, and [main]
    uploads them. *)
Lemma error_status_counterexample :
  let w := Sample.world (Sample.login_ok :: Sample.second_page_500) in
  let run := main Sample.lib Sample.cfg w 3 in
  match requests_post w (take 2 (posted run))
          (page_request Sample.cfg Sample.search_url
             "<search token='TOKEN-1' report='config-guid' page='2'/>") with
  | Ok response => Requests.status_code response = 500
  | Raise _ => False
  end
  ∧ posted run !! 2%nat
    = Some (page_request Sample.cfg Sample.search_url
              "<search token='TOKEN-1' report='config-guid' page='2'/>")
  ∧ length (posted run) = 3%nat
  ∧ snd (fetch_all_report_pages Sample.lib Sample.cfg w 3 (Some "TOKEN-1")
           "config-guid" Sample.search_url (take 1 (posted run)))
    = Returned [ <[Some "Date/Time Closed" := "05/01/2024"]>
                   {[Some "Date Created" := "01/01/2024"]} ]
  ∧ match ending run with
    | Uploaded _ df =>
        rows df = [ <[Some "Date/Time Closed" := "05/01/2024"]>
                      {[Some "Date Created" := "01/01/2024"]} ]
    | _ => False
    end.
Proof.
  cbv zeta. split; [|split; [|split; [|split]]]; vm_compute; reflexivity.
Qed.

(** ** Days open *)

Lemma normalize_timestamp y m d hh mm :
  0 ≤ hh < 24 → 0 ≤ mm < 60 →
  normalize (timestamp y m d hh mm) = days_from_civil y m d * NS_PER_DAY.
Proof.
  intros Hhh Hmm. unfold normalize, timestamp.
  rewrite Z.add_comm, Z.mod_add by (unfold NS_PER_DAY; lia).
  rewrite Z.mod_small by (unfold NS_PER_DAY; lia). lia.
Qed.

Lemma days_of_midnights a b :
  days (a * NS_PER_DAY - b * NS_PER_DAY) = a - b.
Proof.
  unfold days. rewrite <- Z.mul_sub_distr_r. apply Z.div_mul. discriminate.
Qed.

Lemma normalize_midnight t :
  normalize t = t / NS_PER_DAY * NS_PER_DAY.
Proof.
  unfold normalize.
  pose proof (Z.div_mod t NS_PER_DAY ltac:(discriminate)). lia.
Qed.

Lemma days_normalize a b :
  days (normalize a - normalize b) = a / NS_PER_DAY - b / NS_PER_DAY.
Proof. rewrite !normalize_midnight. apply days_of_midnights. Qed.

Lemma elem_of_date_columns_of (df : Table) (col : string) :
  col ∈ date_columns_of df
  ↔ Some col ∈ columns df ∧ PyStr.contains "Date" col = true.
Proof.
  unfold date_columns_of.
  rewrite list_elem_of_In, List.filter_In, <- list_elem_of_In, list_elem_of_omap.
  split.
  - intros [(label & Hlabel & Hid) Hdate]. cbn in Hid. subst label.
    split; [|done]. by apply elem_of_elements.
  - intros [Hcol Hdate]. split; [|done].
    exists (Some col). split; [|done]. by apply elem_of_elements.
Qed.

(** The date columns all convert exactly when line 55 raises nothing. *)
Lemma date_columns_convert (lib : Lib) (df : Table) :
  Forall (λ col, is_Some (to_datetime lib (series df (Some col))))
    (date_columns_of df)
  ↔ is_Some (mapM (λ col, (λ column, (col, column)) <$> converted lib df col)
               (date_columns_of df)).
Proof.
  rewrite mapM_is_Some. apply Forall_iff. intros col.
  unfold compose, converted. rewrite !fmap_is_Some. done.
Qed.

Lemma days_open_cells today (closed created : list (option Z)) i c r :
  closed !! i = Some c →
  created !! i = Some r →
  zip_with (days_open_cell today)
    ((λ cell : option Z, normalize <$> cell) <$> closed)
    ((λ cell : option Z, normalize <$> cell) <$> created) !! i
  = Some match c, r with
         | Some c, Some r => Some (days (normalize c - normalize r))
         | None, Some r => Some (days (today - normalize r))
         | _, None => None
         end.
Proof.
  intros Hc Hr. rewrite lookup_zip_with, !list_lookup_fmap, Hc, Hr.
  by destruct c, r.
Qed.

(** The enrichment of a table whose date columns all convert and whose
    two columns of interest have no time zone. *)
Lemma enrich_naive (lib : Lib) (w : World) (df : Table) closed created :
  None ∉ columns df →
  Forall (λ col, is_Some (to_datetime lib (series df (Some col))))
    (date_columns_of df) →
  Some "Date/Time Closed" ∈ columns df →
  Some "Date Created" ∈ columns df →
  to_datetime lib (series df (Some "Date/Time Closed")) = Some (Naive closed) →
  to_datetime lib (series df (Some "Date Created")) = Some (Naive created) →
  ∃ date_columns,
    enrich lib w df
    = Ok {| rows := df;
            date_columns := date_columns;
            days_open :=
              zip_with (days_open_cell (normalize (now w)))
                ((λ cell : option Z, normalize <$> cell) <$> closed)
                ((λ cell : option Z, normalize <$> cell) <$> created) |}.
Proof.
  intros Hnone Hall Hclosed Hcreated Hc Hr. unfold enrich.
  rewrite (decide_False _ _ Hnone).
  apply date_columns_convert in Hall as [date_columns ->].
  rewrite (decide_True _ _ Hclosed), (decide_True _ _ Hcreated).
  unfold converted. rewrite Hc, Hr. cbn [fmap option_fmap option_map normalize_column].
  by exists date_columns.
Qed.

(** C5.  On a table that has the columns Date Created and Date/Time
    Closed, whose date columns all convert and where these two carry no time
    zone, the enrichment returns, and row by row the Days Open column is the
    number of whole days from the creation date to the closing date when the
    closing date is not null, and from the creation date to the current date
    when it is null (the number is null when the creation date is).  Between
    two dates the number of whole days is the difference of their day
    numbers.  A row created on 2024-01-01 and closed on 2024-01-05 gets 4; a
    row created on 2024-01-01 with a null closing date gets 9 when the run
    takes place on 2024-01-10. *)
Theorem days_open_is_whole_days (lib : Lib) (w : World) (df : Table)
    closed created :
  None ∉ columns df →
  Forall (λ col, is_Some (to_datetime lib (series df (Some col))))
    (date_columns_of df) →
  Some "Date/Time Closed" ∈ columns df →
  Some "Date Created" ∈ columns df →
  to_datetime lib (series df (Some "Date/Time Closed")) = Some (Naive closed) →
  to_datetime lib (series df (Some "Date Created")) = Some (Naive created) →
  length closed = length df →
  length created = length df →
  ∃ df',
    enrich lib w df = Ok df'
    ∧ rows df' = df
    ∧ length (days_open df') = length df
    ∧ (∀ i c r,
         closed !! i = Some c →
         created !! i = Some r →
         days_open df' !! i =
           Some match c, r with
                | Some c, Some r => Some (days (normalize c - normalize r))
                | None, Some r => Some (days (normalize (now w) - normalize r))
                | _, None => None
                end)
    ∧ (∀ a b, days (normalize a - normalize b)
              = a / NS_PER_DAY - b / NS_PER_DAY)
    ∧ (∀ i h1 m1 h2 m2,
         0 ≤ h1 < 24 → 0 ≤ m1 < 60 → 0 ≤ h2 < 24 → 0 ≤ m2 < 60 →
         created !! i = Some (Some (timestamp 2024 1 1 h1 m1)) →
         closed !! i = Some (Some (timestamp 2024 1 5 h2 m2)) →
         days_open df' !! i = Some (Some 4))
    ∧ (∀ i h1 m1 h2 m2,
         0 ≤ h1 < 24 → 0 ≤ m1 < 60 → 0 ≤ h2 < 24 → 0 ≤ m2 < 60 →
         created !! i = Some (Some (timestamp 2024 1 1 h1 m1)) →
         closed !! i = Some None →
         now w = timestamp 2024 1 10 h2 m2 →
         days_open df' !! i = Some (Some 9)).
Proof.
  intros Hnone Hall Hclosed Hcreated Hc Hr Hlen_closed Hlen_created.
  destruct (enrich_naive lib w df closed created Hnone Hall Hclosed Hcreated
              Hc Hr) as [date_columns ->].
  eexists. split; [reflexivity|]. cbn [rows days_open].
  split; [done|].
  split.
  { rewrite length_zip_with, !length_fmap. lia. }
  split; [intros i c r; apply days_open_cells|].
  split; [exact days_normalize|].
  split.
  - intros i h1 m1 h2 m2 Hh1 Hm1 Hh2 Hm2 Hri Hci.
    rewrite (days_open_cells _ _ _ i _ _ Hci Hri), !normalize_timestamp by done.
    by rewrite days_of_midnights.
  - intros i h1 m1 h2 m2 Hh1 Hm1 Hh2 Hm2 Hri Hci Hnow.
    rewrite (days_open_cells _ _ _ i _ _ Hci Hri), Hnow, !normalize_timestamp
      by done.
    by rewrite days_of_midnights.
Qed.

Lemma days_open_is_whole_days_witness :
  match enrich Sample.lib (Sample.world []) Sample.incidents with
  | Ok df' => days_open df' !! 0%nat = Some (Some 4)
              ∧ days_open df' !! 1%nat = Some (Some 9)
              ∧ length (days_open df') = 2%nat
  | Raise _ => False
  end.
Proof.
  destruct (days_open_is_whole_days Sample.lib (Sample.world []) Sample.incidents
              [Some (timestamp 2024 1 5 0 0); None]
              [Some (timestamp 2024 1 1 0 0); Some (timestamp 2024 1 1 0 0)])
    as (df' & -> & _ & Hlength & _ & _ & Hclosed & Hopen).
  - by vm_compute.
  - vm_compute. repeat (constructor; [eexists; reflexivity|]). constructor.
  - by vm_compute.
  - by vm_compute.
  - by vm_compute.
  - by vm_compute.
  - reflexivity.
  - reflexivity.
  - split; [|split; [|exact Hlength]].
    + apply (Hclosed 0%nat 0 0 0 0); (lia || reflexivity).
    + apply (Hopen 1%nat 0 0 15 30); (lia || reflexivity).
Defined.

(** * Further properties of the code *)

(** ** Schema extractor and record normalizer *)

Section NormalizerMore.
Implicit Types (report_headers : gmap (option string) (option string)).
Implicit Types (record_dict : gmap (option string) string).
Implicit Types (field : Element).

Lemma headers_fold_lookup (defs : list Element)
    (acc : gmap (option string) (option string)) (id : option string) :
  fold_left (λ field_definitions_dict field,
               <[get field "id" := get field "name"]> field_definitions_dict)
    defs acc !! id
  = match last (filter (λ d, get d "id" = id) defs) with
    | Some d => Some (get d "name")
    | None => acc !! id
    end.
Proof.
  revert acc. induction defs as [|d defs IH]; intros acc; [done|].
  cbn [fold_left]. rewrite IH, filter_cons.
  destruct (decide (get d "id" = id)) as [Heq|Hne].
  - rewrite last_cons.
    destruct (last (filter (λ d0, get d0 "id" = id) defs)); [done|].
    by rewrite Heq, lookup_insert_eq.
  - destruct (last (filter (λ d0, get d0 "id" = id) defs)); [done|].
    by rewrite lookup_insert_ne.
Qed.

(** X1.  The schema maps an identifier to the name given by the last
    FieldDefinition element, in document order, that carries this
    identifier; an identifier no FieldDefinition carries is not in the
    schema. *)
Theorem get_report_headers_last_wins (xml_tree : Element) (id : option string) :
  get_report_headers xml_tree !! id
  = (λ d, get d "name")
      <$> last (filter (λ d, get d "id" = id)
                  (findall_desc xml_tree "FieldDefinition")).
Proof.
  unfold get_report_headers. rewrite headers_fold_lookup.
  by destruct (last _).
Qed.

Lemma first_last_name_keys_differ (s : string) :
  s ++ "_FirstName" ≠ s ++ "_LastName".
Proof.
  induction s as [|c s IH]; [discriminate|].
  cbn [String.append]. intros [= Heq]. by apply IH.
Qed.

Lemma length_append (s t : string) :
  String.length (s ++ t) = (String.length s + String.length t)%nat.
Proof.
  induction s as [|c s IH]; [done|].
  change (String c s ++ t) with (String c (s ++ t)).
  cbn [String.length Nat.add]. by f_equal.
Qed.

Lemma suffixed_key_differs (s suffix : string) :
  suffix ≠ "" → s ++ suffix ≠ s.
Proof.
  intros Hsuffix Heq. apply (f_equal String.length) in Heq.
  rewrite length_append in Heq.
  destruct suffix; [done|]. cbn in Heq. lia.
Qed.

Lemma derived_key_is_not_the_name (name : option string) (suffix : string) :
  suffix ≠ "" → Some (PyStr.of_opt name ++ suffix) ≠ name.
Proof.
  intros Hsuffix. destruct name as [s|]; [|done].
  cbn. intros [= Heq]. by apply (suffixed_key_differs s suffix).
Qed.

(** X2.  Every field yields an entry under its name, and a field whose
    identifier is not in the schema is named "Field_" followed by the
    identifier ("Field_None" when the field has no id attribute). *)
Theorem every_field_is_named report_headers record_dict field :
  is_Some (process_field report_headers record_dict field
             !! field_name_of report_headers field)
  ∧ (report_headers !! get field "id" = None →
     field_name_of report_headers field
     = Some ("Field_" ++ PyStr.of_opt (get field "id"))).
Proof.
  split.
  - unfold process_field, with_user.
    repeat case_match; rewrite lookup_insert_eq; eauto.
  - intros Hmiss. unfold field_name_of. by rewrite Hmiss.
Qed.

Lemma every_field_is_named_witness :
  is_Some (process_field ∅ ∅ Sample.empty_reference
             !! field_name_of ∅ Sample.empty_reference)
  ∧ field_name_of ∅ Sample.empty_reference = Some "Field_7".
Proof.
  split.
  - exact (proj1 (every_field_is_named ∅ ∅ Sample.empty_reference)).
  - exact (proj2 (every_field_is_named ∅ ∅ Sample.empty_reference) eq_refl).
Defined.

(** X3.  A user-identity field (empty text, no usable list label, no usable
    reference, a Users/User element) writes three entries: the user's
    trimmed text under the field's name, and the firstName and lastName
    attributes (the empty string when absent) under the name suffixed with
    _FirstName and _LastName. *)
Theorem user_field_writes_three_entries report_headers record_dict field user :
  text_stripped field = "" →
  if_truthy (extract_list_value field) = None →
  if_truthy (extract_reference field) = None →
  find_desc_child field "Users" "User" = Some user →
  let name := field_name_of report_headers field in
  let record_dict' := process_field report_headers record_dict field in
  record_dict' !! name = Some (text_stripped user)
  ∧ record_dict' !! Some (PyStr.of_opt name ++ "_FirstName")
    = Some (default "" (get user "firstName"))
  ∧ record_dict' !! Some (PyStr.of_opt name ++ "_LastName")
    = Some (default "" (get user "lastName")).
Proof.
  intros Hempty Hlist Href Huser. cbv zeta.
  rewrite process_field_empty_text by done. cbv zeta.
  rewrite Hlist, Href. unfold extract_users. rewrite Huser.
  unfold with_user. cbn [email firstName lastName].
  assert (Some (PyStr.of_opt (field_name_of report_headers field) ++ "_FirstName")
          ≠ field_name_of report_headers field) as Hfirst
    by by apply derived_key_is_not_the_name.
  assert (Some (PyStr.of_opt (field_name_of report_headers field) ++ "_LastName")
          ≠ field_name_of report_headers field) as Hlast
    by by apply derived_key_is_not_the_name.
  split; [apply lookup_insert_eq|]. split.
  - rewrite lookup_insert_ne by done.
    rewrite lookup_insert_ne.
    + rewrite lookup_insert_eq. unfold get_default, get. by destruct (_ !! _).
    + intros [= Heq]. symmetry in Heq.
      by apply first_last_name_keys_differ in Heq.
  - rewrite lookup_insert_ne by done.
    rewrite lookup_insert_eq. unfold get_default, get. by destruct (_ !! _).
Qed.

Lemma user_field_writes_three_entries_witness :
  process_field ∅ ∅ Sample.empty_reference_and_user !! Some "Field_7"
    = Some "ada@example.org"
  ∧ process_field ∅ ∅ Sample.empty_reference_and_user
      !! Some "Field_7_FirstName" = Some "Ada"
  ∧ process_field ∅ ∅ Sample.empty_reference_and_user
      !! Some "Field_7_LastName" = Some "Lovelace".
Proof.
  exact (user_field_writes_three_entries ∅ ∅ Sample.empty_reference_and_user
           _ eq_refl eq_refl eq_refl eq_refl).
Defined.

(** X4.  Processing a field leaves every entry of the record untouched except
    the one under the field's name and the two under its suffixed names. *)
Theorem process_field_touches_three_keys report_headers record_dict field key :
  key ≠ field_name_of report_headers field →
  key ≠ Some (PyStr.of_opt (field_name_of report_headers field) ++ "_FirstName") →
  key ≠ Some (PyStr.of_opt (field_name_of report_headers field) ++ "_LastName") →
  process_field report_headers record_dict field !! key = record_dict !! key.
Proof.
  intros Hname Hfirst Hlast. unfold process_field, with_user.
  repeat case_match; by rewrite ?lookup_insert_ne.
Qed.

Lemma process_field_touches_three_keys_witness :
  process_field ∅ {[Some "Title" := "kept"]} Sample.empty_reference_and_user
    !! Some "Title" = Some "kept".
Proof.
  rewrite (process_field_touches_three_keys ∅ {[Some "Title" := "kept"]}
             Sample.empty_reference_and_user (Some "Title"));
    [reflexivity | discriminate..].
Defined.

Lemma process_field_value_alone report_headers record_dict field :
  process_field report_headers record_dict field
    !! field_name_of report_headers field
  = process_field report_headers ∅ field !! field_name_of report_headers field.
Proof.
  unfold process_field, with_user.
  repeat case_match; by rewrite !lookup_insert_eq.
Qed.

(** X5.  Within a record the last field wins: the entry under the name of the
    record's last Field element is that field's own value, whatever the
    earlier fields wrote under the same name. *)
Theorem last_field_wins report_headers (record : Element) fields field :
  findall_desc record "Field" = (fields ++ [field])%list →
  record_to_dict report_headers record !! field_name_of report_headers field
  = process_field report_headers ∅ field !! field_name_of report_headers field.
Proof.
  intros Hfields. unfold record_to_dict. rewrite Hfields, fold_left_app.
  cbn [fold_left]. apply process_field_value_alone.
Qed.

Lemma last_field_wins_witness :
  record_to_dict ∅ Sample.twice_the_same_field !! Some "Field_1" = Some "second".
Proof.
  exact (last_field_wins ∅ Sample.twice_the_same_field
           [Elem "Field" (Sample.attributes [("id", "1")]) (Some "first") []]
           (Elem "Field" (Sample.attributes [("id", "1")]) (Some "second") [])
           eq_refl).
Defined.

End NormalizerMore.

Lemma get_report_headers_last_wins_example :
  get_report_headers Sample.redefined_schema !! Some "1" = Some (Some "New")
  ∧ get_report_headers Sample.redefined_schema !! Some "3" = None.
Proof.
  rewrite !get_report_headers_last_wins. split; reflexivity.
Defined.

(** ** More on the fetch loop *)

Section FetchLoopMore.
Context (lib : Lib) (cfg : Config) (w : World).
Context (archer_token : option string) (guid url : string).

Lemma fetch_loop_in_order fuel posts n final_df :
  ∃ xmls,
    fst (fetch_loop lib cfg w fuel archer_token guid url posts n final_df)
      = (posts ++ map (page_request cfg url) xmls)%list
    ∧ Forall2 (λ k xml,
                 archer_incident_report_xml cfg archer_token guid k = Ok xml)
        (seqZ n (Z.of_nat (length xmls))) xmls.
Proof.
  revert posts n final_df.
  induction fuel as [|fuel IH]; intros posts n final_df; cbn [fetch_loop].
  { exists []. split; [by rewrite app_nil_r | constructor]. }
  destruct (archer_incident_report_xml cfg archer_token guid n)
    as [xml|e] eqn:Hxml;
    [|exists []; split; [by rewrite app_nil_r | constructor]].
  assert (Forall2 (λ k xml0,
                     archer_incident_report_xml cfg archer_token guid k = Ok xml0)
            (seqZ n (Z.of_nat (length [xml]))) [xml]) as Hone.
  { cbn [length]. rewrite seqZ_cons by lia. constructor; [done|].
    rewrite seqZ_nil by lia. constructor. }
  destruct (requests_post w posts (page_request cfg url xml)) as [response|e];
    [|by exists [xml]].
  destruct (response_to_xml lib response "SearchRecordsByReportResult")
    as [page|e]; [|by exists [xml]].
  destruct (findall_desc page "Record") as [|r rs]; [by exists [xml]|].
  destruct (IH (posts ++ [page_request cfg url xml])%list (n + 1)
              (get_report_records page (get_report_headers page) ++ final_df)%list)
    as (xmls & -> & Hxmls).
  exists (xml :: xmls). split.
  - by rewrite <- app_assoc.
  - cbn [length]. rewrite seqZ_cons by lia. constructor; [done|].
    by replace (Z.pred (Z.of_nat (S (length xmls))))
      with (Z.of_nat (length xmls)) by lia.
Qed.

(** X6.  Whatever the endpoint answers and however long the loop runs, the
    requests the fetcher posts are, in order, the requests for pages 1, 2,
    3, ...: no page number is skipped or repeated. *)
Theorem pages_are_requested_in_order fuel posts :
  ∃ xmls,
    fst (fetch_all_report_pages lib cfg w fuel archer_token guid url posts)
      = (posts ++ map (page_request cfg url) xmls)%list
    ∧ Forall2 (λ k xml,
                 archer_incident_report_xml cfg archer_token guid k = Ok xml)
        (seqZ 1 (Z.of_nat (length xmls))) xmls.
Proof. apply fetch_loop_in_order. Qed.

(** X7.  The loop has no bound of its own: against an endpoint that answers
    every request with a page holding records, it is still running after
    any number of iterations, having posted one request per iteration. *)
Theorem fetch_never_stops_on_full_pages :
  (∀ n, ∃ xml, archer_incident_report_xml cfg archer_token guid n = Ok xml) →
  (∀ posts request, ∃ response page,
     requests_post w posts request = Ok response
     ∧ response_to_xml lib response "SearchRecordsByReportResult" = Ok page
     ∧ record_count page ≠ 0%nat) →
  ∀ fuel posts,
    snd (fetch_all_report_pages lib cfg w fuel archer_token guid url posts)
      = OutOfFuel
    ∧ length (fst (fetch_all_report_pages lib cfg w fuel archer_token guid
                     url posts))
      = (length posts + fuel)%nat.
Proof.
  intros Hbuild Hfull fuel posts. unfold fetch_all_report_pages.
  assert (∀ posts final_df n,
            snd (fetch_loop lib cfg w fuel archer_token guid url posts n final_df)
              = OutOfFuel
            ∧ length (fst (fetch_loop lib cfg w fuel archer_token guid url
                             posts n final_df))
              = (length posts + fuel)%nat) as Hloop; [|apply Hloop].
  clear posts. induction fuel as [|fuel IH]; intros posts final_df n.
  { cbn [fetch_loop fst snd]. split; [done | lia]. }
  cbn [fetch_loop].
  destruct (Hbuild n) as [xml ->].
  destruct (Hfull posts (page_request cfg url xml))
    as (response & page & -> & -> & Hpage).
  unfold record_count in Hpage.
  destruct (findall_desc page "Record") as [|r rs] eqn:Hfind; [done|].
  destruct (IH (posts ++ [page_request cfg url xml])%list
              (get_report_records page (get_report_headers page) ++ final_df)%list
              (n + 1)) as [-> ->].
  split; [done|]. rewrite length_app. cbn [length]. lia.
Qed.





End FetchLoopMore.

Lemma fetch_never_stops_on_full_pages_witness :
  snd (fetch_all_report_pages Sample.lib Sample.cfg Sample.always_full 7
         (Some "TOKEN-1") "report-1" Sample.search_url []) = OutOfFuel
  ∧ length (fst (fetch_all_report_pages Sample.lib Sample.cfg Sample.always_full 7
                   (Some "TOKEN-1") "report-1" Sample.search_url [])) = 7%nat.
Proof.
  apply (fetch_never_stops_on_full_pages Sample.lib Sample.cfg Sample.always_full
           (Some "TOKEN-1") "report-1" Sample.search_url).
  - intros n. eexists. reflexivity.
  - intros posts request.
    exists {| Requests.status_code := 200;
              Requests.text :=
                Sample.envelope_text Sample.search_result
                  (Sample.page_text Sample.titles Sample.page_a) |},
      (Sample.page_tree Sample.titles Sample.page_a).
    split; [reflexivity|]. split; [by vm_compute | discriminate].
Defined.


(** ** More on the handshake and on [main] *)

Section RunMore.
Context (lib : Lib) (cfg : Config) (w : World).

(** X9.  The handshake reads three secrets before it posts anything: when the
    lookup of the password, of the instance or of the user name raises, the
    call raises and no request has been posted.  The password and instance
    keys are the dev ones when the URL contains "uat", the prod ones
    otherwise. *)
Theorem handshake_needs_every_secret archer_url posts key e :
  key ∈ [ (if PyStr.contains "uat" archer_url
           then "archer-dev-password" else "archer-prod-password");
          (if PyStr.contains "uat" archer_url
           then "archer-dev-instance" else "archer-prod-instance");
          "archer-username" ] →
  get_secret w key = Raise e →
  ∃ e', archer_auth_token lib cfg w archer_url posts = (posts, Raise e').
Proof.
  intros Hkey Hraise.
  unfold archer_auth_token, create_user_session_request.
  set (password_key := if PyStr.contains "uat" archer_url
                       then "archer-dev-password" else "archer-prod-password") in *.
  set (instance_key := if PyStr.contains "uat" archer_url
                       then "archer-dev-instance" else "archer-prod-instance") in *.
  destruct (get_secret w password_key) as [password|e1] eqn:Hpassword;
    [|by eexists].
  destruct (get_secret w instance_key) as [instance_id|e2] eqn:Hinstance;
    [|by eexists].
  destruct (get_secret w "archer-username") as [username|e3] eqn:Husername;
    [|by eexists].
  rewrite !elem_of_cons in Hkey.
  destruct Hkey as [-> | [-> | [-> | Hkey]]]; [congruence..|].
  by apply not_elem_of_nil in Hkey.
Qed.

(** X10.  The report identifier kept in the vault is never used, yet the run
    needs it: when its lookup raises, [main] ends after the handshake,
    without calling the fetcher. *)
Theorem unused_report_secret_is_required fuel posts archer_token e :
  archer_auth_token lib cfg w (ARCHER_PROD_URL cfg) [] = (posts, Ok archer_token) →
  get_secret w "archer-prod-incident-report-guid" = Raise e →
  main lib cfg w fuel
  = {| posted := posts; fetch_call := None; ending := SecretsFailed e |}.
Proof. intros Hauth Hguid. unfold main. by rewrite Hauth, Hguid. Qed.

Lemma elem_of_columns (df : Table) (col : option string) :
  col ∈ columns df ↔ ∃ row, row ∈ df ∧ is_Some (row !! col).
Proof.
  unfold columns. rewrite elem_of_union_list. split.
  - intros (X & HX & Hcol). apply list_elem_of_fmap in HX as (row & -> & Hrow).
    exists row. split; [done|]. by apply elem_of_dom.
  - intros (row & Hrow & Hcol). exists (dom row). split.
    + by apply list_elem_of_fmap_2.
    + by apply elem_of_dom.
Qed.

Lemma no_none_label (df : Table) :
  None ∉ columns df ↔ ∀ row, row ∈ df → row !! None = None.
Proof.
  rewrite elem_of_columns. split.
  - intros Hno row Hrow. apply eq_None_not_Some. intros Hsome.
    apply Hno. by exists row.
  - intros Hall (row & Hrow & Hsome). rewrite (Hall row Hrow) in Hsome.
    by destruct Hsome.
Qed.

Lemma enrich_none_label (df : Table) :
  None ∈ columns df → enrich lib w df = Raise TypeError.
Proof. intros Hnone. unfold enrich. by rewrite (decide_True _ _ Hnone). Qed.

Lemma enrich_not_converted (df : Table) :
  None ∉ columns df →
  ¬ Forall (λ col, is_Some (to_datetime lib (series df (Some col))))
      (date_columns_of df) →
  enrich lib w df = Raise ValueError.
Proof.
  intros Hnone Hall. unfold enrich. rewrite (decide_False _ _ Hnone).
  rewrite date_columns_convert in Hall.
  by destruct (mapM _ (date_columns_of df)); [destruct Hall; eauto|].
Qed.

Lemma enrich_missing_column (df : Table) :
  None ∉ columns df →
  Forall (λ col, is_Some (to_datetime lib (series df (Some col))))
    (date_columns_of df) →
  Some "Date/Time Closed" ∉ columns df ∨ Some "Date Created" ∉ columns df →
  enrich lib w df = Raise KeyError.
Proof.
  intros Hnone Hall Hmissing. unfold enrich. rewrite (decide_False _ _ Hnone).
  apply date_columns_convert in Hall as [date_columns ->].
  destruct Hmissing as [Hc|Hr].
  - by rewrite (decide_False _ _ Hc).
  - case_decide; [|done]. by rewrite (decide_False _ _ Hr).
Qed.

Lemma enrich_time_zone (df : Table) :
  None ∉ columns df →
  Forall (λ col, is_Some (to_datetime lib (series df (Some col))))
    (date_columns_of df) →
  Some "Date/Time Closed" ∈ columns df →
  Some "Date Created" ∈ columns df →
  ¬ (∃ cells, to_datetime lib (series df (Some "Date/Time Closed"))
              = Some (Naive cells))
  ∨ ¬ (∃ cells, to_datetime lib (series df (Some "Date Created"))
                = Some (Naive cells)) →
  enrich lib w df = Raise TypeError.
Proof.
  intros Hnone Hall Hc Hr Hzone. unfold enrich. rewrite (decide_False _ _ Hnone).
  apply date_columns_convert in Hall as [date_columns ->].
  rewrite (decide_True _ _ Hc), (decide_True _ _ Hr). unfold converted.
  destruct (to_datetime lib (series df (Some "Date Created")))
    as [[created|offset created]|]; cbn [fmap option_fmap option_map
                                          normalize_column]; try done.
  destruct (to_datetime lib (series df (Some "Date/Time Closed")))
    as [[closed|offset closed]|]; cbn [fmap option_fmap option_map
                                        normalize_column]; try done.
  destruct Hzone as [Hno|Hno]; exfalso; apply Hno; eauto.
Qed.

(** X11.  The date enrichment returns exactly when no row has an entry
    labelled [None], every column whose name contains "Date" converts, some
    row has an entry for each of Date/Time Closed and Date Created, and these
    two columns convert to columns without time zone.  Otherwise it raises:
    TypeError when some row has an entry labelled [None]; else ValueError
    when a date column does not convert; else KeyError when one of the two
    columns is missing; else TypeError when one of the two has a time
    zone. *)
Theorem enrich_succeeds_iff (df : Table) :
  let no_none := ∀ row, row ∈ df → row !! None = None in
  let all_convert :=
    Forall (λ col, is_Some (to_datetime lib (series df (Some col))))
      (date_columns_of df) in
  let has col := ∃ row, row ∈ df ∧ is_Some (row !! Some col) in
  let naive col :=
    ∃ cells, to_datetime lib (series df (Some col)) = Some (Naive cells) in
  ((∃ df', enrich lib w df = Ok df') ↔
     no_none ∧ all_convert
     ∧ has "Date/Time Closed" ∧ has "Date Created"
     ∧ naive "Date/Time Closed" ∧ naive "Date Created")
  ∧ (¬ no_none → enrich lib w df = Raise TypeError)
  ∧ (no_none → ¬ all_convert → enrich lib w df = Raise ValueError)
  ∧ (no_none → all_convert →
     ¬ has "Date/Time Closed" ∨ ¬ has "Date Created" →
     enrich lib w df = Raise KeyError)
  ∧ (no_none → all_convert → has "Date/Time Closed" → has "Date Created" →
     ¬ naive "Date/Time Closed" ∨ ¬ naive "Date Created" →
     enrich lib w df = Raise TypeError).
Proof.
  cbv zeta. rewrite <- !elem_of_columns, <- no_none_label.
  split; [|split; [|split; [|split]]].
  - split.
    + intros [df' Hok].
      destruct (decide (None ∈ columns df)) as [Hnone|Hnone];
        [by rewrite (enrich_none_label _ Hnone) in Hok|].
      destruct (decide (Forall (λ col, is_Some (to_datetime lib
                                                  (series df (Some col))))
                          (date_columns_of df))) as [Hall|Hall];
        [|by rewrite (enrich_not_converted _ Hnone Hall) in Hok].
      destruct (decide (Some "Date/Time Closed" ∈ columns df)) as [Hc|Hc];
        [|by rewrite (enrich_missing_column _ Hnone Hall (or_introl Hc)) in Hok].
      destruct (decide (Some "Date Created" ∈ columns df)) as [Hr|Hr];
        [|by rewrite (enrich_missing_column _ Hnone Hall (or_intror Hr)) in Hok].
      destruct (to_datetime lib (series df (Some "Date/Time Closed")))
        as [[closed|offset closed]|] eqn:Hclosed.
      2,3: rewrite (enrich_time_zone _ Hnone Hall Hc Hr) in Hok; [done|];
        left; intros [cells Hcells]; congruence.
      destruct (to_datetime lib (series df (Some "Date Created")))
        as [[created|offset created]|] eqn:Hcreated.
      2,3: rewrite (enrich_time_zone _ Hnone Hall Hc Hr) in Hok; [done|];
        right; intros [cells Hcells]; congruence.
      repeat split; eauto.
    + intros (Hnone & Hall & Hc & Hr & [closed Hclosed] & [created Hcreated]).
      destruct (enrich_naive lib w df closed created Hnone Hall Hc Hr
                  Hclosed Hcreated) as [date_columns ->].
      by eexists.
  - intros Hnone. apply enrich_none_label.
    by destruct (decide (None ∈ columns df)).
  - apply enrich_not_converted.
  - apply enrich_missing_column.
  - apply enrich_time_zone.
Qed.

Lemma enrich_rows (df : Table) df' : enrich lib w df = Ok df' → rows df' = df.
Proof.
  unfold enrich. case_decide; [done|].
  destruct (mapM _ _); [|done]. repeat case_decide; try done.
  destruct (converted lib df "Date Created") as [[created|]|]; try done.
  destruct (converted lib df "Date/Time Closed") as [[closed|]|]; try done.
  by intros [= <-].
Qed.

Lemma enrich_empty_table : enrich lib w [] = Raise KeyError.
Proof.
  assert (∀ col : option string, col ∉ columns []) as Hempty.
  { intros col. rewrite elem_of_columns. intros (row & Hrow & _).
    by apply not_elem_of_nil in Hrow. }
  apply enrich_missing_column; [done| |by left].
  apply Forall_forall. intros col Hcol.
  apply elem_of_date_columns_of in Hcol as [Hcol _]. by apply Hempty in Hcol.
Qed.

(** X12.  A report whose first page holds no records makes [main] end with an
    uncaught KeyError: the empty table has no Date/Time Closed column.
    Nothing is uploaded. *)
Theorem empty_report_crashes fuel posts posts' archer_token guid url last :
  archer_auth_token lib cfg w (ARCHER_PROD_URL cfg) [] = (posts, Ok archer_token) →
  get_secret w "archer-prod-incident-report-guid" = Ok guid →
  get_secret w "archer-search-url" = Ok url →
  serves lib cfg w archer_token (INCIDENT_REPORT_TOKEN cfg) url posts 1 [last]
    posts' →
  record_count last = 0%nat →
  (0 < fuel)%nat →
  main lib cfg w fuel
  = {| posted := posts';
       fetch_call := Some (archer_token, INCIDENT_REPORT_TOKEN cfg, url);
       ending := Crashed KeyError |}.
Proof.
  intros Hauth Hguid Hurl Hserves Hlast Hfuel.
  unfold main. rewrite Hauth, Hguid. cbn [mbind result_bind].
  rewrite Hurl. cbn [mbind result_bind].
  rewrite (fetch_returns lib cfg w archer_token _ url posts [] last posts' fuel
             Hserves ltac:(constructor) Hlast Hfuel).
  cbn [map rev concat].
  by rewrite enrich_empty_table.
Qed.

(** X13.  [main] uploads only after the handshake, the two secret lookups,
    the fetch and the enrichment have all returned.  What it uploads is the
    enrichment of the table the fetcher returned, under the path
    DIRECTORY/incident_report_alicja_report.parquet, and the requests posted
    by then are those of the handshake and of the fetch. *)
Theorem uploaded_table_is_the_fetched_table fuel full_path df :
  ending (main lib cfg w fuel) = Uploaded full_path df →
  full_path = DIRECTORY cfg ++ "/incident_report_alicja_report.parquet"
  ∧ ∃ posts archer_token guid url posts' table,
      archer_auth_token lib cfg w (ARCHER_PROD_URL cfg) []
        = (posts, Ok archer_token)
      ∧ get_secret w "archer-prod-incident-report-guid" = Ok guid
      ∧ get_secret w "archer-search-url" = Ok url
      ∧ fetch_all_report_pages lib cfg w fuel archer_token
          (INCIDENT_REPORT_TOKEN cfg) url posts = (posts', Returned table)
      ∧ enrich lib w table = Ok df
      ∧ upload w full_path df = Ok tt
      ∧ posted (main lib cfg w fuel) = posts'.
Proof.
  unfold main.
  destruct (archer_auth_token lib cfg w (ARCHER_PROD_URL cfg) [])
    as [posts [archer_token|e]]; [|done].
  destruct (get_secret w "archer-prod-incident-report-guid") as [guid|e];
    [|done].
  cbn [mbind result_bind].
  destruct (get_secret w "archer-search-url") as [url|e]; [|done].
  cbn [mbind result_bind].
  destruct (fetch_all_report_pages lib cfg w fuel archer_token
              (INCIDENT_REPORT_TOKEN cfg) url posts) as [posts' [table|e|]]
    eqn:Hfetch; [|done..].
  destruct (enrich lib w table) as [df'|e] eqn:Henrich; [|done].
  destruct (upload w _ df') as [[]|e] eqn:Hupload; [|done].
  cbn [ending posted]. intros [= <- <-]. split; [done|].
  exists posts, archer_token, guid, url, posts', table.
  by rewrite Hfetch.
Qed.

End RunMore.

Lemma handshake_needs_every_secret_witness :
  ∃ e, archer_auth_token Sample.lib Sample.cfg
         (Sample.world_with Sample.secrets_without_username [Sample.login_ok])
         "https://archer.example" []
       = ([], Raise e).
Proof.
  apply (handshake_needs_every_secret Sample.lib Sample.cfg
           (Sample.world_with Sample.secrets_without_username [Sample.login_ok])
           "https://archer.example" [] "archer-username" VaultError).
  - do 2 apply list_elem_of_further. apply list_elem_of_here.
  - reflexivity.
Defined.

Lemma unused_report_secret_is_required_witness :
  ending (main Sample.lib Sample.cfg
            (Sample.world_with Sample.secrets_without_report_guid
               (Sample.login_ok :: Sample.one_page)) 3)
  = SecretsFailed VaultError.
Proof.
  rewrite (unused_report_secret_is_required Sample.lib Sample.cfg
             (Sample.world_with Sample.secrets_without_report_guid
                (Sample.login_ok :: Sample.one_page)) 3 _ (Some "TOKEN-1")
             VaultError eq_refl eq_refl).
  reflexivity.
Defined.

Lemma enrich_succeeds_iff_witness :
  (∃ df', enrich Sample.lib (Sample.world []) Sample.incidents = Ok df')
  ∧ enrich Sample.lib (Sample.world []) [ {[Some "Title" := "a1"]} ]
    = Raise KeyError
  ∧ enrich Sample.lib (Sample.world []) Sample.utc_incidents = Raise TypeError
  ∧ enrich Sample.lib (Sample.world []) Sample.mixed_incidents
    = Raise ValueError.
Proof.
  assert (∀ (df : Table) (row : gmap (option string) string),
            Forall (λ r, r !! None = None) df → row ∈ df → row !! None = None)
    as Hnone.
  { intros df row Hall Hrow. by apply (proj1 (Forall_forall _ _) Hall). }
  split; [|split; [|split]].
  - apply (proj1 (enrich_succeeds_iff Sample.lib (Sample.world [])
                    Sample.incidents)).
    split; [|split; [|split; [|split; [|split]]]].
    + intros row. apply Hnone. by repeat constructor.
    + vm_compute. repeat (constructor; [eexists; reflexivity|]). constructor.
    + eexists. split; [apply list_elem_of_here|]. by eexists.
    + eexists. split; [apply list_elem_of_here|]. by eexists.
    + eexists. reflexivity.
    + eexists. reflexivity.
  - apply (proj1 (proj2 (proj2 (proj2 (enrich_succeeds_iff Sample.lib
                                         (Sample.world [])
                                         [ {[Some "Title" := "a1"]} ]))))).
    + intros row. apply Hnone. by repeat constructor.
    + vm_compute. constructor.
    + left. intros (row & Hrow & Hsome).
      apply list_elem_of_singleton in Hrow as ->. by destruct Hsome.
  - apply (proj2 (proj2 (proj2 (proj2 (enrich_succeeds_iff Sample.lib
                                         (Sample.world [])
                                         Sample.utc_incidents))))).
    + intros row. apply Hnone. by repeat constructor.
    + vm_compute. repeat (constructor; [eexists; reflexivity|]). constructor.
    + eexists. split; [apply list_elem_of_here|]. by eexists.
    + eexists. split; [apply list_elem_of_here|]. by eexists.
    + left. intros [cells Hcells]. vm_compute in Hcells. discriminate Hcells.
  - apply (proj1 (proj2 (proj2 (enrich_succeeds_iff Sample.lib
                                  (Sample.world []) Sample.mixed_incidents)))).
    + intros row. apply Hnone. by repeat constructor.
    + intros Hall. rewrite Forall_forall in Hall.
      destruct (Hall "Date Created") as [column Hcolumn].
      * apply elem_of_date_columns_of. split; by vm_compute.
      * vm_compute in Hcolumn. discriminate Hcolumn.
Defined.

Lemma empty_report_crashes_witness :
  ending (main Sample.lib Sample.cfg
            (Sample.world (Sample.login_ok :: Sample.empty_report)) 3)
  = Crashed KeyError.
Proof.
  erewrite (empty_report_crashes Sample.lib Sample.cfg
              (Sample.world (Sample.login_ok :: Sample.empty_report)) 3
              _ _ (Some "TOKEN-1") "vault-guid" Sample.search_url
              (Sample.page_tree Sample.titles []) eq_refl eq_refl eq_refl).
  - reflexivity.
  - run_session.
  - reflexivity.
  - lia.
Defined.

Lemma uploaded_table_is_the_fetched_table_witness :
  match ending (main Sample.lib Sample.cfg
                  (Sample.world (Sample.login_ok :: Sample.one_page)) 3) with
  | Uploaded full_path df =>
      full_path = "incidents/incident_report_alicja_report.parquet"
  | _ => False
  end.
Proof.
  destruct (ending (main Sample.lib Sample.cfg
                      (Sample.world (Sample.login_ok :: Sample.one_page)) 3))
    as [e|e|e| |e|e|full_path df] eqn:Hend;
    try (vm_compute in Hend; discriminate Hend).
  exact (proj1 (uploaded_table_is_the_fetched_table Sample.lib Sample.cfg
                  (Sample.world (Sample.login_ok :: Sample.one_page)) 3
                  full_path df Hend)).
Defined.

(** ** Whitespace, nesting and dates *)

(** X14.  Text made of whitespace only counts as no text: the field is handled
    exactly as if it had no text at all, so a structured value that follows
    an indentation or a line break inside the Field element is used. *)
Theorem whitespace_text_is_no_text
    (report_headers : gmap (option string) (option string))
    (record_dict : gmap (option string) string)
    (tag : string) (attrib : gmap string string) (t : string)
    (children : list Element) :
  PyStr.strip t = "" →
  process_field report_headers record_dict (Elem tag attrib (Some t) children)
  = process_field report_headers record_dict (Elem tag attrib None children).
Proof.
  intros Hblank.
  assert (text_stripped (Elem tag attrib (Some t) children) = "") as Hsome.
  { by rewrite (text_stripped_some _ t). }
  by rewrite !process_field_empty_text.
Qed.

Lemma whitespace_text_is_no_text_witness :
  process_field ∅ ∅
    (Elem "Field" (Sample.attributes [("id", "7")]) (Some "   ")
       [Elem "Reference" ∅ (Some "R-1") []])
  = {[Some "Field_7" := "R-1"]}.
Proof.
  rewrite (whitespace_text_is_no_text ∅ ∅ "Field"
             (Sample.attributes [("id", "7")]) "   "
             [Elem "Reference" ∅ (Some "R-1") []] eq_refl).
  reflexivity.
Defined.














(** X16.  Days Open is never negative as long as the closing timestamp (for a
    closed incident) or the current time (for an open one) is not before the
    creation timestamp, whatever the times of day. *)
Theorem days_open_is_not_negative (now closed created : Z) :
  (created ≤ closed →
   ∃ d, days_open_cell (normalize now) (Some (normalize closed))
          (Some (normalize created)) = Some d ∧ 0 ≤ d)
  ∧ (created ≤ now →
     ∃ d, days_open_cell (normalize now) None (Some (normalize created)) = Some d
          ∧ 0 ≤ d).
Proof.
  assert (∀ a b, a ≤ b → 0 ≤ days (normalize b - normalize a)) as Hdays.
  { intros a b Hle. rewrite days_normalize.
    pose proof (Z.div_le_mono a b NS_PER_DAY ltac:(done) Hle). lia. }
  split; intros Hle; eexists; (split; [reflexivity|]); by apply Hdays.
Qed.

Lemma days_open_is_not_negative_witness :
  ∃ d, days_open_cell (normalize (timestamp 2024 1 10 15 30))
         (Some (normalize (timestamp 2024 1 2 9 0)))
         (Some (normalize (timestamp 2024 1 1 17 45))) = Some d
       ∧ 0 ≤ d.
Proof.
  apply (proj1 (days_open_is_not_negative (timestamp 2024 1 10 15 30)
                  (timestamp 2024 1 2 9 0) (timestamp 2024 1 1 17 45))).
  by vm_compute.
Defined.

(** ** The normalizer's output for a field *)

Section NormalizerOutput.
Implicit Types (report_headers : gmap (option string) (option string)).
Implicit Types (record_dict : gmap (option string) string).
Implicit Types (page record field : Element).

Lemma get_report_records_lookup page report_headers (i : nat) record :
  findall_desc page "Record" !! i = Some record →
  get_report_records page report_headers !! i
  = Some (record_to_dict report_headers record).
Proof.
  unfold get_report_records. generalize (findall_desc page "Record").
  intros records. revert i. induction records as [|r records IH];
    intros [|i] Hrecord; try done.
  - by injection Hrecord as ->.
  - by apply IH.
Qed.

Lemma record_to_dict_split report_headers record before field after :
  findall_desc record "Field" = (before ++ field :: after)%list →
  record_to_dict report_headers record
  = fold_left (process_field report_headers) after
      (process_field report_headers
         (fold_left (process_field report_headers) before ∅) field).
Proof.
  intros Hfields. unfold record_to_dict. by rewrite Hfields, fold_left_app.
Qed.

Lemma process_field_not_written report_headers record_dict field key :
  key ∉ written_keys report_headers field →
  process_field report_headers record_dict field !! key = record_dict !! key.
Proof.
  unfold written_keys, process_field, with_user.
  repeat case_match; rewrite !not_elem_of_cons;
    intros Hkey; rewrite ?lookup_insert_ne; try done;
    intros <-; tauto.
Qed.

Lemma fields_not_written report_headers after record_dict key :
  Forall (λ later, key ∉ written_keys report_headers later) after →
  fold_left (process_field report_headers) after record_dict !! key
  = record_dict !! key.
Proof.
  intros Hafter. revert record_dict.
  induction Hafter as [|later after Hlater _ IH]; intros record_dict; [done|].
  cbn [fold_left]. by rewrite IH, process_field_not_written.
Qed.

(** The output row of a record, seen from one of its fields: the fields
    before it, the field itself, the fields after it. *)
Lemma output_row page report_headers (i : nat) record before field after :
  findall_desc page "Record" !! i = Some record →
  findall_desc record "Field" = (before ++ field :: after)%list →
  get_report_records page report_headers !! i
  = Some (fold_left (process_field report_headers) after
            (process_field report_headers
               (fold_left (process_field report_headers) before ∅) field)).
Proof.
  intros Hrecord Hfields.
  by rewrite (get_report_records_lookup _ _ _ _ Hrecord),
    (record_to_dict_split _ _ _ _ _ Hfields).
Qed.

(** The value the output row holds under a field's name when no later
    field of the record writes there. *)
Lemma output_value page report_headers (i : nat) record before field after :
  findall_desc page "Record" !! i = Some record →
  findall_desc record "Field" = (before ++ field :: after)%list →
  Forall (λ later, field_name_of report_headers field
                   ∉ written_keys report_headers later) after →
  ∃ row,
    get_report_records page report_headers !! i = Some row
    ∧ row !! field_name_of report_headers field
      = process_field report_headers ∅ field
          !! field_name_of report_headers field.
Proof.
  intros Hrecord Hfields Hafter. eexists.
  split; [exact (output_row _ _ _ _ _ _ _ Hrecord Hfields)|].
  rewrite fields_not_written by done. apply process_field_value_alone.
Qed.

(** C9, as the code has it.  For a Field of a Record of the page whose
    own text, trimmed, is not empty, the normalizer writes that trimmed text
    under the field's name, whatever ListValues, Reference or Users elements
    the field contains: the output row is the fields before it processed,
    then that entry, then the fields after it processed.  The trimmed text
    is the value of the output row under the field's name when no later
    field of the record writes under that name. *)
Theorem plain_text_in_output
    page report_headers (i : nat) record before field after t :
  findall_desc page "Record" !! i = Some record →
  findall_desc record "Field" = (before ++ field :: after)%list →
  text field = Some t →
  PyStr.strip t ≠ "" →
  get_report_records page report_headers !! i
    = Some (fold_left (process_field report_headers) after
              (<[field_name_of report_headers field := PyStr.strip t]>
                 (fold_left (process_field report_headers) before ∅)))
  ∧ (Forall (λ later, field_name_of report_headers field
                      ∉ written_keys report_headers later) after →
     ∃ row,
       get_report_records page report_headers !! i = Some row
       ∧ row !! field_name_of report_headers field = Some (PyStr.strip t)).
Proof.
  intros Hrecord Hfields Ht Hne. split.
  - rewrite (output_row _ _ _ _ _ _ _ Hrecord Hfields).
    by rewrite (proj1 (plain_text_wins _ _ _ _ Ht Hne)).
  - intros Hafter.
    destruct (output_value _ report_headers _ _ _ _ _ Hrecord Hfields Hafter)
      as (row & Hrow & Hvalue).
    exists row. split; [done|]. rewrite Hvalue.
    apply (plain_text_wins _ _ _ _ Ht Hne).
Qed.

Lemma plain_text_in_output_witness :
  ∃ row,
    get_report_records
      (Sample.page_of_fields [Sample.text_and_structure; Sample.other_field]) ∅
      !! 0%nat = Some row
    ∧ row !! Some "Field_7" = Some "open".
Proof.
  apply (proj2 (plain_text_in_output
                  (Sample.page_of_fields
                     [Sample.text_and_structure; Sample.other_field]) ∅ 0
                  _ [] Sample.text_and_structure [Sample.other_field] "  open  "
                  eq_refl eq_refl eq_refl ltac:(vm_compute; discriminate))).
  apply (bool_decide_unpack _). by vm_compute.
Defined.

(** C9 fails on a record with two fields of the same name: the first has
    the text "first", and the output row holds "second" under its name. *)
Lemma plain_text_counterexample :
  let first := Elem "Field" (Sample.attributes [("id", "1")]) (Some "first") [] in
  let page := Sample.page_of_fields (children Sample.twice_the_same_field) in
  (findall_desc page "Record" ≫= λ record, findall_desc record "Field") !! 0%nat
    = Some first
  ∧ text first = Some "first"
  ∧ PyStr.strip "first" = "first"
  ∧ get_report_records page ∅ = [ {[Some "Field_1" := "second"]} ]
  ∧ (get_report_records page ∅ !! 0%nat
       ≫= λ row, row !! field_name_of ∅ first) ≠ Some "first".
Proof.
  cbv zeta. split; [|split; [|split; [|split]]]; try reflexivity.
  vm_compute. discriminate.
Qed.

(** C1, as the code has it.  For a Field of a Record of the page with
    empty trimmed text, no usable list label and a Reference element whose
    trimmed text is empty, the normalizer goes on to user-identity extraction
    as if there were no Reference: it writes the empty string under the
    field's name when the field has no Users/User element, and otherwise the
    user's trimmed text together with the first and last name.  That value is
    the one the output row holds under the field's name when no later field
    of the record writes under that name. *)
Theorem empty_reference_in_output
    page report_headers (i : nat) record before field after :
  findall_desc page "Record" !! i = Some record →
  findall_desc record "Field" = (before ++ field :: after)%list →
  text_stripped field = "" →
  if_truthy (extract_list_value field) = None →
  extract_reference field = Some "" →
  get_report_records page report_headers !! i
    = Some (fold_left (process_field report_headers) after
              (match extract_users field with
               | Some u =>
                   with_user (field_name_of report_headers field) u
                     (fold_left (process_field report_headers) before ∅)
               | None =>
                   <[field_name_of report_headers field := ""]>
                     (fold_left (process_field report_headers) before ∅)
               end))
  ∧ (Forall (λ later, field_name_of report_headers field
                      ∉ written_keys report_headers later) after →
     ∃ row,
       get_report_records page report_headers !! i = Some row
       ∧ row !! field_name_of report_headers field
         = Some match extract_users field with
                | Some u => email u
                | None => ""
                end).
Proof.
  intros Hrecord Hfields Hempty Hlist Href. split.
  - rewrite (output_row _ _ _ _ _ _ _ Hrecord Hfields).
    by rewrite (empty_reference_falls_through _ _ _ Hempty Hlist Href).
  - intros Hafter.
    destruct (output_value _ report_headers _ _ _ _ _ Hrecord Hfields Hafter)
      as (row & Hrow & Hvalue).
    exists row. split; [done|]. rewrite Hvalue.
    rewrite (empty_reference_falls_through _ _ _ Hempty Hlist Href).
    unfold with_user. destruct (extract_users field); apply lookup_insert_eq.
Qed.

Lemma empty_reference_in_output_witness :
  ∃ row,
    get_report_records
      (Sample.page_of_fields [Sample.empty_reference; Sample.other_field]) ∅
      !! 0%nat = Some row
    ∧ row !! Some "Field_7" = Some "".
Proof.
  refine (proj2 (empty_reference_in_output
                   (Sample.page_of_fields
                      [Sample.empty_reference; Sample.other_field]) ∅ 0
                   _ [] Sample.empty_reference [Sample.other_field]
                   eq_refl eq_refl eq_refl eq_refl eq_refl) _).
  apply (bool_decide_unpack _). by vm_compute.
Defined.

(** C1 fails where the field also holds a user: the empty reference does
    not stop the search, and the output row holds the user's e-mail. *)
Lemma empty_reference_output_counterexample :
  let page := Sample.page_of_fields [Sample.empty_reference_and_user] in
  text_stripped Sample.empty_reference_and_user = ""
  ∧ if_truthy (extract_list_value Sample.empty_reference_and_user) = None
  ∧ extract_reference Sample.empty_reference_and_user = Some ""
  ∧ (findall_desc page "Record" ≫= λ record, findall_desc record "Field")
    = [Sample.empty_reference_and_user]
  ∧ get_report_records page ∅
    = [ <[Some "Field_7" := "ada@example.org"]>
          (<[Some "Field_7_LastName" := "Lovelace"]>
             {[Some "Field_7_FirstName" := "Ada"]}) ]
  ∧ (get_report_records page ∅ !! 0%nat ≫= λ row, row !! Some "Field_7")
    ≠ Some "".
Proof.
  cbv zeta. split; [|split; [|split; [|split; [|split]]]]; try reflexivity.
  vm_compute. discriminate.
Qed.

(** C10.  For a Field of a Record of the page with empty trimmed text
    whose first ListValues/ListValue element has no displayName attribute, or
    an empty one, the normalizer treats the list value as not found: it
    writes under the field's name the trimmed text of the Reference element
    if that is not empty, else the text of the Users/User element (with the
    first and last name), else the empty string.  When the displayName
    attribute is a non-empty string the normalizer writes that label.  In
    both cases the output row is the fields before processed, then these
    entries, then the fields after processed, and the value written is the
    one the output row holds under the field's name when no later field of
    the record writes under that name. *)
Theorem list_label_in_output
    page report_headers (i : nat) record before field after lv :
  findall_desc page "Record" !! i = Some record →
  findall_desc record "Field" = (before ++ field :: after)%list →
  text_stripped field = "" →
  find_desc_child field "ListValues" "ListValue" = Some lv →
  (get lv "displayName" = None ∨ get lv "displayName" = Some "" →
   get_report_records page report_headers !! i
     = Some (fold_left (process_field report_headers) after
               (match if_truthy (extract_reference field) with
                | Some ref =>
                    <[field_name_of report_headers field := ref]>
                      (fold_left (process_field report_headers) before ∅)
                | None =>
                    match extract_users field with
                    | Some u =>
                        with_user (field_name_of report_headers field) u
                          (fold_left (process_field report_headers) before ∅)
                    | None =>
                        <[field_name_of report_headers field := ""]>
                          (fold_left (process_field report_headers) before ∅)
                    end
                end))
   ∧ (Forall (λ later, field_name_of report_headers field
                       ∉ written_keys report_headers later) after →
      ∃ row,
        get_report_records page report_headers !! i = Some row
        ∧ row !! field_name_of report_headers field
          = Some match if_truthy (extract_reference field) with
                 | Some ref => ref
                 | None =>
                     match extract_users field with
                     | Some u => email u
                     | None => ""
                     end
                 end))
  ∧ (∀ label, get lv "displayName" = Some label → label ≠ "" →
     get_report_records page report_headers !! i
       = Some (fold_left (process_field report_headers) after
                 (<[field_name_of report_headers field := label]>
                    (fold_left (process_field report_headers) before ∅)))
     ∧ (Forall (λ later, field_name_of report_headers field
                         ∉ written_keys report_headers later) after →
        ∃ row,
          get_report_records page report_headers !! i = Some row
          ∧ row !! field_name_of report_headers field = Some label)).
Proof.
  intros Hrecord Hfields Hempty Hfind.
  pose proof (list_label_needs_display_name report_headers) as Hstep.
  split.
  - intros Hlabel. split.
    + rewrite (output_row _ _ _ _ _ _ _ Hrecord Hfields).
      by rewrite (proj1 (Hstep _ _ _ Hempty Hfind) Hlabel).
    + intros Hafter.
      destruct (output_value _ report_headers _ _ _ _ _ Hrecord Hfields Hafter)
        as (row & Hrow & Hvalue).
      exists row. split; [done|]. rewrite Hvalue.
      rewrite (proj1 (Hstep _ _ _ Hempty Hfind) Hlabel). unfold with_user.
      destruct (if_truthy (extract_reference field));
        [|destruct (extract_users field)]; apply lookup_insert_eq.
  - intros label Hlabel Hne. split.
    + rewrite (output_row _ _ _ _ _ _ _ Hrecord Hfields).
      by rewrite (proj2 (Hstep _ _ _ Hempty Hfind) label Hlabel Hne).
    + intros Hafter.
      destruct (output_value _ report_headers _ _ _ _ _ Hrecord Hfields Hafter)
        as (row & Hrow & Hvalue).
      exists row. split; [done|]. rewrite Hvalue.
      rewrite (proj2 (Hstep _ _ _ Hempty Hfind) label Hlabel Hne).
      apply lookup_insert_eq.
Qed.

Lemma list_label_in_output_witness :
  (∃ row,
     get_report_records
       (Sample.page_of_fields [Sample.no_label_and_user; Sample.other_field]) ∅
       !! 0%nat = Some row
     ∧ row !! Some "Field_7" = Some "ada@example.org")
  ∧ (∃ row,
       get_report_records
         (Sample.page_of_fields
            [Sample.empty_label_and_reference; Sample.other_field]) ∅
         !! 0%nat = Some row
       ∧ row !! Some "Field_7" = Some "R-1")
  ∧ (∃ row,
       get_report_records
         (Sample.page_of_fields [Sample.label_and_reference; Sample.other_field])
         ∅ !! 0%nat = Some row
       ∧ row !! Some "Field_7" = Some "High").
Proof.
  split; [|split].
  - refine (proj2 (proj1 (list_label_in_output
                            (Sample.page_of_fields
                               [Sample.no_label_and_user; Sample.other_field])
                            ∅ 0 _ [] Sample.no_label_and_user
                            [Sample.other_field] _
                            eq_refl eq_refl eq_refl eq_refl)
                     (or_introl eq_refl)) _).
    apply (bool_decide_unpack _). by vm_compute.
  - refine (proj2 (proj1 (list_label_in_output
                            (Sample.page_of_fields
                               [Sample.empty_label_and_reference;
                                Sample.other_field])
                            ∅ 0 _ [] Sample.empty_label_and_reference
                            [Sample.other_field] _
                            eq_refl eq_refl eq_refl eq_refl)
                     (or_intror eq_refl)) _).
    apply (bool_decide_unpack _). by vm_compute.
  - refine (proj2 (proj2 (list_label_in_output
                            (Sample.page_of_fields
                               [Sample.label_and_reference; Sample.other_field])
                            ∅ 0 _ [] Sample.label_and_reference
                            [Sample.other_field] _
                            eq_refl eq_refl eq_refl eq_refl)
                     "High" eq_refl ltac:(discriminate)) _).
    apply (bool_decide_unpack _). by vm_compute.
Defined.

End NormalizerOutput.
